(** * Chain payload normalisation: [background/services/chain/utils.ts]

    A shallow embedding of the block, transaction and network converters of
    the wallet's chain service, together with the fragment of the ECMAScript
    and ethers.js run-time they call.

    Conventions of the embedding.
    - A JavaScript string is a [string]: a sequence of code units, here
      restricted to the code units below 256.
    - A JavaScript [number] is modelled on its integer-valued fragment:
      [NaN], the two infinities, and [Num z] for the double whose value is
      the integer [z].  The two zeros are identified (the program never
      distinguishes them).  Where the run-time rounds a mathematical integer
      to a double, the rounding is written out ([round53], [number_of_Z]).
    - A [bigint] and an ethers [BigNumber] are both an unbounded [Z].
    - A value that may be [undefined] or [null] has type [js A].
    - A function that may throw returns a [result]. *)

From Stdlib Require Import ZArith String Ascii List Bool Lia.
Import ListNotations.

Local Open Scope string_scope.
Local Open Scope Z_scope.

(** ** Optional values and exceptions *)

Inductive js (A : Type) : Type :=
| undefined : js A
| null : js A
| def : A -> js A.

Arguments undefined {A}.
Arguments null {A}.
Arguments def {A} _.

(** [x ?? d] *)
Definition nullish {A : Type} (x : js A) (d : js A) : js A :=
  match x with
  | def a => def a
  | _ => d
  end.

Definition is_def {A : Type} (x : js A) : bool :=
  match x with
  | def _ => true
  | _ => false
  end.

(** What the program and its libraries throw. *)
Inductive exn : Type :=
| Error (message : string)          (* [throw Error(...)] of the program *)
| TypeError                         (* [BigInt(undefined)], [BigInt(null)] *)
| RangeError                        (* [BigInt(NaN)], [BigInt(Infinity)] *)
| SyntaxError                       (* [BigInt("zz")] *)
| INVALID_ARGUMENT                  (* ethers: invalid BigNumber value/string *)
| NUMERIC_FAULT_overflow.           (* ethers: [toNumber] beyond 53 bits *)

Inductive result (A : Type) : Type :=
| Ok : A -> result A
| Throw : exn -> result A.

Arguments Ok {A} _.
Arguments Throw {A} _.

Definition bind {A B : Type} (m : result A) (k : A -> result B) : result B :=
  match m with
  | Ok a => k a
  | Throw e => Throw e
  end.

Notation "x <- m ;; k" := (bind m (fun x => k))
  (at level 61, m at next level, right associativity).

Definition returns {A : Type} (m : result A) : bool :=
  match m with
  | Ok _ => true
  | Throw _ => false
  end.

(** ** The ECMAScript fragment *)

Module JS.

Inductive number : Type :=
| NaN
| Infinity (negative : bool)
| Num (z : Z).

Definition MAX_SAFE_INTEGER : Z := 2 ^ 53 - 1.

(** Round-to-nearest, ties-to-even, on a 53-bit significand: the value of
    the double nearest to the integer [z] (exponent range aside). *)
Definition round53 (z : Z) : Z :=
  let a := Z.abs z in
  let bits := Z.log2 a + 1 in
  if bits <=? 53 then z
  else
    let sh := bits - 53 in
    let q := Z.shiftr a sh in
    let r := a - Z.shiftl q sh in
    let half := Z.shiftl 1 (sh - 1) in
    let q' := if (half <? r) || ((r =? half) && Z.odd q) then q + 1 else q in
    Z.sgn z * Z.shiftl q' sh.

(** The Number value of a mathematical integer. *)
Definition number_of_Z (z : Z) : number :=
  let d := round53 z in
  if 2 ^ 1024 <=? Z.abs d then Infinity (z <? 0) else Num d.

Definition code (c : ascii) : Z := Z.of_N (N_of_ascii c).

(** StrWhiteSpaceChar, below code unit 256. *)
Definition is_space (c : ascii) : bool :=
  let n := code c in
  ((9 <=? n) && (n <=? 13)) || (n =? 32) || (n =? 160).

Fixpoint trim_start (s : string) : string :=
  match s with
  | String c t => if is_space c then trim_start t else s
  | EmptyString => s
  end.

Fixpoint rev_string (s acc : string) : string :=
  match s with
  | String c t => rev_string t (String c acc)
  | EmptyString => acc
  end.

Definition trim (s : string) : string :=
  rev_string (trim_start (rev_string (trim_start s) "")) "".

(** No code unit of the string is a blank. *)
Fixpoint no_space (s : string) : bool :=
  match s with
  | String c t => negb (is_space c) && no_space t
  | EmptyString => true
  end.

(** The value of a digit in any radix up to 36. *)
Definition digit_value (c : ascii) : option Z :=
  let n := code c in
  if (48 <=? n) && (n <=? 57) then Some (n - 48)
  else if (97 <=? n) && (n <=? 122) then Some (n - 87)
  else if (65 <=? n) && (n <=? 90) then Some (n - 55)
  else None.

Definition digit (R : Z) (c : ascii) : option Z :=
  match digit_value c with
  | Some d => if d <? R then Some d else None
  | None => None
  end.

(** The integer denoted by the longest prefix of radix-[R] digits. *)
Fixpoint scan (R : Z) (s : string) (acc : Z) : Z :=
  match s with
  | String c t =>
      match digit R c with
      | Some d => scan R t (acc * R + d)
      | None => acc
      end
  | EmptyString => acc
  end.

Definition leading_int (R : Z) (s : string) : option Z :=
  match s with
  | String c _ =>
      match digit R c with
      | Some _ => Some (scan R s 0)
      | None => None
      end
  | EmptyString => None
  end.

Fixpoint all_digits (R : Z) (s : string) : bool :=
  match s with
  | String c t =>
      match digit R c with
      | Some _ => all_digits R t
      | None => false
      end
  | EmptyString => true
  end.

(** A non-empty string made of radix-[R] digits only. *)
Definition whole_int (R : Z) (s : string) : option Z :=
  match s with
  | EmptyString => None
  | _ => if all_digits R s then Some (scan R s 0) else None
  end.

Definition is_char (c : ascii) (a b : string) : bool :=
  (String c "" =? a)%string || (String c "" =? b)%string.

(** [parseInt(s, R)] for an explicit radix [R] between 2 and 36. *)
Definition parseInt (s : string) (R : Z) : number :=
  let s1 := trim_start s in
  let '(neg, s2) :=
    match s1 with
    | String c t =>
        if is_char c "-" "-" then (true, t)
        else if is_char c "+" "+" then (false, t)
        else (false, s1)
    | EmptyString => (false, s1)
    end in
  let s3 :=
    match s2 with
    | String c0 (String c1 t) =>
        if (R =? 16) && is_char c0 "0" "0" && is_char c1 "x" "X" then t else s2
    | _ => s2
    end in
  match leading_int R s3 with
  | Some m => number_of_Z (if neg then - m else m)
  | None => NaN
  end.

(** A literal with a radix prefix: [0x], [0o], [0b] in either case. *)
Definition prefixed_int (s : string) : option Z :=
  match s with
  | String c0 (String c1 t) =>
      if is_char c0 "0" "0" then
        if is_char c1 "x" "X" then whole_int 16 t
        else if is_char c1 "o" "O" then whole_int 8 t
        else if is_char c1 "b" "B" then whole_int 2 t
        else None
      else None
  | _ => None
  end.

(** A decimal integer with an optional sign. *)
Definition signed_int (s : string) : option Z :=
  match s with
  | String c t =>
      if is_char c "-" "-" then option_map Z.opp (whole_int 10 t)
      else if is_char c "+" "+" then whole_int 10 t
      else whole_int 10 s
  | EmptyString => None
  end.

(** StringToBigInt: [None] is the SyntaxError of [BigInt(s)]. *)
Definition StringToBigInt (s : string) : option Z :=
  let t := trim s in
  match t with
  | EmptyString => Some 0
  | _ =>
      match prefixed_int t with
      | Some z => Some z
      | None => signed_int t
      end
  end.

(** [BigInt(x)] for [x] a string, [undefined] or [null]. *)
Definition BigInt (x : js string) : result Z :=
  match x with
  | def s =>
      match StringToBigInt s with
      | Some z => Ok z
      | None => Throw SyntaxError
      end
  | _ => Throw TypeError
  end.

(** [BigInt(x)] for [x] a number. *)
Definition BigInt_of_number (x : number) : result Z :=
  match x with
  | Num z => Ok z
  | _ => Throw RangeError
  end.

(** StringToNumber on the integer literals: the empty string, signed
    decimal integers, prefixed integers and [Infinity].  Decimal literals
    with a fraction or an exponent denote doubles that need not be
    integers; they are outside the fragment modelled here and are sent to
    [NaN] together with the strings that are no literal at all. *)
Definition StringToNumber (s : string) : number :=
  let t := trim s in
  match t with
  | EmptyString => Num 0
  | _ =>
      if (t =? "Infinity")%string || (t =? "+Infinity")%string
      then Infinity false
      else if (t =? "-Infinity")%string then Infinity true
      else
        match prefixed_int t with
        | Some z => number_of_Z z
        | None =>
            match signed_int t with
            | Some z => number_of_Z z
            | None => NaN
            end
        end
  end.

(** [Number(x)] for [x] a string, [undefined] or [null]. *)
Definition Number (x : js string) : number :=
  match x with
  | undefined => NaN
  | null => Num 0
  | def s => StringToNumber s
  end.

(** Truthiness. *)
Definition truthy_string (s : string) : bool :=
  match s with
  | EmptyString => false
  | _ => true
  end.

Definition truthy_number (x : number) : bool :=
  match x with
  | NaN => false
  | Infinity _ => true
  | Num z => negb (z =? 0)
  end.

Definition truthy {A : Type} (t : A -> bool) (x : js A) : bool :=
  match x with
  | def a => t a
  | _ => false
  end.

Definition truthy_bigint (z : Z) : bool := negb (z =? 0).

(** An object (a BigNumber) is truthy whatever it holds. *)
Definition truthy_object {A : Type} (_ : A) : bool := true.

(** [x || d] *)
Definition or_else {A : Type} (t : A -> bool) (x : js A) (d : js A) : js A :=
  if truthy t x then x else d.

(** [s.slice(-n)] for a positive [n]: the last [n] code units, or all of
    [s] when it is shorter. *)
Fixpoint drop (n : nat) (s : string) : string :=
  match n, s with
  | S m, String _ t => drop m t
  | _, _ => s
  end.

Definition slice_last (n : nat) (s : string) : string :=
  drop (String.length s - n) s.

(** [s.toLowerCase()] on code units below 256: the ASCII capitals and the
    Latin-1 capitals (U+00C0..U+00DE without the multiplication sign). *)
Definition lower_char (c : ascii) : ascii :=
  let n := code c in
  if ((65 <=? n) && (n <=? 90))
     || ((192 <=? n) && (n <=? 222) && negb (n =? 215))
  then ascii_of_N (Z.to_N (n + 32))
  else c.

Fixpoint toLowerCase (s : string) : string :=
  match s with
  | String c t => String (lower_char c) (toLowerCase t)
  | EmptyString => EmptyString
  end.

(** *** [Number.prototype.toString] on the integer-valued doubles *)

Definition digit_char (d : Z) : ascii := ascii_of_N (Z.to_N (48 + d)).

Fixpoint dec_digits (fuel : nat) (n : Z) (acc : string) : string :=
  match fuel with
  | O => acc
  | S f =>
      let acc' := String (digit_char (n mod 10)) acc in
      if n <? 10 then acc' else dec_digits f (n / 10) acc'
  end.

(** The decimal numeral of a natural number. *)
Definition decimal (n : Z) : string :=
  dec_digits (S (Z.to_nat (Z.log2 n))) n "".

Definition rounds_to (c z : Z) : bool :=
  match number_of_Z c with
  | Num d => d =? z
  | _ => false
  end.

(** The integer with the fewest significant digits that rounds to the
    double [z]; between two of the same length, the nearer one.  [p] is the
    weight of the last significant digit kept. *)
Fixpoint shortest_from (fuel : nat) (p z : Z) : Z :=
  match fuel with
  | O => z
  | S f =>
      let lo := (z / p) * p in
      let hi := lo + p in
      match rounds_to lo z, rounds_to hi z with
      | true, true =>
          if z - lo <? hi - z then lo
          else if hi - z <? z - lo then hi
          else if Z.even (z / p) then lo else hi
      | true, false => lo
      | false, true => hi
      | false, false => shortest_from f (p / 10) z
      end
  end.

(** Up to [MAX_SAFE_INTEGER] every integer is a double of its own and no
    other integer rounds to it, so it is printed digit for digit. *)
Definition shortest (z : Z) : Z :=
  if z <=? MAX_SAFE_INTEGER then z
  else
    let D := String.length (decimal z) in
    shortest_from D (10 ^ (Z.of_nat D - 1)) z.

Fixpoint strip_zeros (rev_digits : string) : string :=
  match rev_digits with
  | String c t => if is_char c "0" "0" then strip_zeros t else rev_digits
  | EmptyString => rev_digits
  end.

(** Positive [z]: plain digits up to 21 of them, exponent notation beyond. *)
Definition positive_toString (z : Z) : string :=
  let ds := decimal (shortest z) in
  let n := String.length ds in
  if Nat.leb n 21 then ds
  else
    match rev_string (strip_zeros (rev_string ds "")) "" with
    | String d EmptyString =>
        (String d "e+" ++ decimal (Z.of_nat n - 1))%string
    | String d rest =>
        (String d "." ++ rest ++ "e+" ++ decimal (Z.of_nat n - 1))%string
    | EmptyString => ds
    end.

Definition Number_toString (x : number) : string :=
  match x with
  | NaN => "NaN"
  | Infinity false => "Infinity"
  | Infinity true => "-Infinity"
  | Num z =>
      if z =? 0 then "0"
      else if z <? 0 then ("-" ++ positive_toString (- z))%string
      else positive_toString z
  end.

(** ToString of a possibly absent number, as a template literal does it. *)
Definition ToString (x : js number) : string :=
  match x with
  | undefined => "undefined"
  | null => "null"
  | def n => Number_toString n
  end.

End JS.

(** ** The ethers.js fragment *)

Module BigNumber.

(** [BigNumber.from(s)] for a string [s]: an optional minus sign followed
    by [0x] and hexadecimal digits, or by decimal digits.  The library's
    pattern ignores case, so it also lets the prefix [0X] through and then
    mis-reads it; that input is not modelled and is rejected here. *)
Definition from_string (s : string) : result Z :=
  let '(neg, body) :=
    match s with
    | String c t => if JS.is_char c "-" "-" then (true, t) else (false, s)
    | EmptyString => (false, s)
    end in
  let parsed :=
    match body with
    | String c0 (String c1 t) =>
        if JS.is_char c0 "0" "0" && JS.is_char c1 "x" "x"
        then JS.whole_int 16 t
        else JS.whole_int 10 body
    | _ => JS.whole_int 10 body
    end in
  match parsed with
  | Some z => Ok (if neg then - z else z)
  | None => Throw INVALID_ARGUMENT
  end.

(** [BigNumber.from(x)] for [x] a string, [undefined] or [null]. *)
Definition from (x : js string) : result Z :=
  match x with
  | def s => from_string s
  | _ => Throw INVALID_ARGUMENT
  end.

(** [BigNumber.from(b)] for a bigint [b], and [n.toBigInt()]. *)
Definition from_bigint (b : Z) : Z := b.
Definition toBigInt (n : Z) : Z := n.

(** [n.toNumber()]: at most 53 bits, else a numeric fault. *)
Definition toNumber (n : Z) : result JS.number :=
  if Z.abs n <=? JS.MAX_SAFE_INTEGER then Ok (JS.Num n)
  else Throw NUMERIC_FAULT_overflow.

End BigNumber.

(** ** The data model *)

(** Modelled from the spec: the declarations of [EVMNetwork] and
    [FungibleAsset] are in [types.ts], which is not among the sources; the
    converters read [name] and [chainID] of a network and [symbol] of an
    asset. *)
Record EVMNetwork : Type := {
  name : string;
  chainID : string
}.

Record FungibleAsset : Type := {
  symbol : string;
  decimals : Z
}.

(** Modelled from the spec: the canonical block.  Its declaration
    ([AnyEVMBlock]) is in [types.ts], which is not among the sources; the
    fields are those the block converters write. *)
Module Block.
Record t : Type := {
  hash : js string;
  blockHeight : JS.number;
  parentHash : js string;
  difficulty : Z;
  timestamp : JS.number;
  baseFeePerGas : js Z;
  network : EVMNetwork
}.
End Block.

(** Modelled from the spec: the canonical transaction.  Its declarations
    ([AnyEVMTransaction], [SignedEVMTransaction]) are in [types.ts], which is
    not among the sources; the fields are those the transaction converters
    read and write.  The signed variant is the one that carries [r], [s] and
    [v]; in the unsigned variant the three are [undefined]. *)
Module Tx.
Record t : Type := {
  hash : js string;
  from : js string;
  to : js string;
  nonce : JS.number;
  gasLimit : Z;
  gasPrice : js Z;
  maxFeePerGas : js Z;
  maxPriorityFeePerGas : js Z;
  value : Z;
  input : js string;
  type : js JS.number;
  blockHash : js string;
  blockHeight : js JS.number;
  network : EVMNetwork;
  asset : FungibleAsset;
  r : js string;
  s : js string;
  v : js JS.number
}.

Definition signed (tx : t) : bool :=
  is_def (r tx) && is_def (s tx) && is_def (v tx).
End Tx.

(** A block of the polling provider. *)
Module EthersBlock.
Record t : Type := {
  hash : js string;
  number : JS.number;
  parentHash : js string;
  timestamp : JS.number;
  baseFeePerGas : js Z
}.
End EthersBlock.

(** A transaction of the polling provider (ethers' [Transaction], with the
    fields the converter adds to it). *)
Module EthersTx.
Record t : Type := {
  hash : js string;
  to : js string;
  from : js string;
  nonce : JS.number;
  gasLimit : Z;
  gasPrice : js Z;
  data : string;
  value : Z;
  chainId : JS.number;
  r : js string;
  s : js string;
  v : js JS.number;
  type : js JS.number;
  maxPriorityFeePerGas : js Z;
  maxFeePerGas : js Z;
  blockHash : js string;
  blockNumber : js JS.number
}.
End EthersTx.

(** A block pushed by a websocket subscription. *)
Module WsBlock.
Record t : Type := {
  hash : js string;
  number : js string;
  parentHash : js string;
  difficulty : js string;
  timestamp : js string;
  baseFeePerGas : js string
}.
End WsBlock.

(** A transaction pushed by a websocket subscription. *)
Module WsTx.
Record t : Type := {
  hash : js string;
  to : js string;
  from : js string;
  gas : js string;
  gasPrice : js string;
  maxFeePerGas : js string;
  maxPriorityFeePerGas : js string;
  input : js string;
  r : js string;
  s : js string;
  v : js string;
  nonce : js string;
  value : js string;
  blockHash : js string;
  blockHeight : js string;
  blockNumber : js JS.number;
  type : js string
}.
End WsTx.

(** Ethers' network descriptor. *)
Module EthersNetwork.
Record t : Type := {
  name : string;
  chainId : JS.number
}.
End EthersNetwork.

(** ** The converters *)

(** Parse a block as returned by a polling provider.  [ETHEREUM] is the
    network constant of [constants.ts], which is not among the sources. *)
Definition blockFromEthersBlock (ETHEREUM : EVMNetwork)
    (gethResult : EthersBlock.t) : Block.t :=
  {| Block.hash := EthersBlock.hash gethResult;
     Block.blockHeight := EthersBlock.number gethResult;
     Block.parentHash := EthersBlock.parentHash gethResult;
     Block.difficulty := 0;
     Block.timestamp := EthersBlock.timestamp gethResult;
     Block.baseFeePerGas :=
       match EthersBlock.baseFeePerGas gethResult with
       | def b => def (BigNumber.toBigInt b)
       | _ => undefined
       end;
     Block.network := ETHEREUM |}.

(** Parse a block as returned by a websocket provider subscription. *)
Definition blockFromWebsocketBlock (ETHEREUM : EVMNetwork)
    (gethResult : WsBlock.t) : result Block.t :=
  blockHeight <-
    (n <- BigNumber.from (WsBlock.number gethResult) ;; BigNumber.toNumber n) ;;
  difficulty <- JS.BigInt (WsBlock.difficulty gethResult) ;;
  timestamp <-
    (n <- BigNumber.from (WsBlock.timestamp gethResult) ;;
     BigNumber.toNumber n) ;;
  baseFeePerGas <-
    (if JS.truthy JS.truthy_string (WsBlock.baseFeePerGas gethResult)
     then b <- JS.BigInt (WsBlock.baseFeePerGas gethResult) ;; Ok (def b)
     else Ok undefined) ;;
  Ok {| Block.hash := WsBlock.hash gethResult;
        Block.blockHeight := blockHeight;
        Block.parentHash := WsBlock.parentHash gethResult;
        Block.difficulty := difficulty;
        Block.timestamp := timestamp;
        Block.baseFeePerGas := baseFeePerGas;
        Block.network := ETHEREUM |}.

Definition ethersTxFromSignedTx (tx : Tx.t) : EthersTx.t :=
  {| EthersTx.hash := undefined;
     EthersTx.to := Tx.to tx;
     EthersTx.from := Tx.from tx;
     EthersTx.nonce := Tx.nonce tx;
     EthersTx.gasLimit := BigNumber.from_bigint (Tx.gasLimit tx);
     EthersTx.gasPrice := undefined;
     EthersTx.data :=
       match JS.or_else JS.truthy_string (Tx.input tx) (def "") with
       | def d => d
       | _ => ""
       end;
     EthersTx.value := BigNumber.from_bigint (Tx.value tx);
     EthersTx.chainId := JS.parseInt (chainID (Tx.network tx)) 10;
     EthersTx.r := Tx.r tx;
     EthersTx.s := Tx.s tx;
     EthersTx.v := Tx.v tx;
     EthersTx.type := undefined;
     EthersTx.maxPriorityFeePerGas :=
       match Tx.maxPriorityFeePerGas tx with
       | def b => if JS.truthy_bigint b then def (BigNumber.from_bigint b)
                  else undefined
       | _ => undefined
       end;
     EthersTx.maxFeePerGas :=
       match Tx.maxFeePerGas tx with
       | def b => if JS.truthy_bigint b then def (BigNumber.from_bigint b)
                  else undefined
       | _ => undefined
       end;
     EthersTx.blockHash := undefined;
     EthersTx.blockNumber := undefined |}.

(** [x ? BigInt(x) : null] *)
Definition BigInt_or_null (x : js string) : result (js Z) :=
  if JS.truthy JS.truthy_string x
  then b <- JS.BigInt x ;; Ok (def b)
  else Ok null.

(** Parse a transaction as returned by a websocket provider subscription. *)
Definition txFromWebsocketTx (tx : WsTx.t) (asset : FungibleAsset)
    (network : EVMNetwork) : result Tx.t :=
  gasLimit <- JS.BigInt (WsTx.gas tx) ;;
  gasPrice <- JS.BigInt (WsTx.gasPrice tx) ;;
  maxFeePerGas <- BigInt_or_null (WsTx.maxFeePerGas tx) ;;
  maxPriorityFeePerGas <- BigInt_or_null (WsTx.maxPriorityFeePerGas tx) ;;
  v <- (n <- BigNumber.from (WsTx.v tx) ;; BigNumber.toNumber n) ;;
  value <- JS.BigInt (WsTx.value tx) ;;
  type <-
    (match WsTx.type tx with
     | undefined => Ok (def (JS.Num 0))
     | ty => n <- BigNumber.from ty ;; t <- BigNumber.toNumber n ;; Ok (def t)
     end) ;;
  Ok {| Tx.hash := WsTx.hash tx;
        Tx.to := WsTx.to tx;
        Tx.from := WsTx.from tx;
        Tx.gasLimit := gasLimit;
        Tx.gasPrice := def gasPrice;
        Tx.maxFeePerGas := maxFeePerGas;
        Tx.maxPriorityFeePerGas := maxPriorityFeePerGas;
        Tx.input := WsTx.input tx;
        Tx.r := JS.or_else JS.truthy_string (WsTx.r tx) undefined;
        Tx.s := JS.or_else JS.truthy_string (WsTx.s tx) undefined;
        Tx.v := def v;
        Tx.nonce := JS.Number (WsTx.nonce tx);
        Tx.value := value;
        Tx.blockHash := nullish (WsTx.blockHash tx) null;
        Tx.blockHeight := nullish (WsTx.blockNumber tx) null;
        Tx.type := type;
        Tx.asset := asset;
        Tx.network := network |}.

(** [tx.type !== 0 && tx.type !== 1 && tx.type !== 2] *)
Definition unknown_type (ty : js JS.number) : bool :=
  match ty with
  | def (JS.Num z) => negb ((z =? 0) || (z =? 1) || (z =? 2))
  | _ => true
  end.

(** [b ? b.toBigInt() : null] for an optional BigNumber [b]. *)
Definition toBigInt_or_null (b : js Z) : js Z :=
  match b with
  | def n => if JS.truthy_object n then def (BigNumber.toBigInt n) else null
  | _ => null
  end.

(** Parse a transaction as returned by a polling provider. *)
Definition txFromEthersTx (tx : EthersTx.t) (asset : FungibleAsset)
    (network : EVMNetwork) : result Tx.t :=
  match EthersTx.hash tx with
  | undefined => Throw (Error "Malformed transaction")
  | hash =>
      if unknown_type (EthersTx.type tx)
      then Throw (Error ("Unknown transaction type "
                           ++ JS.ToString (EthersTx.type tx)))
      else
        let value := BigNumber.toBigInt (EthersTx.value tx) in
        value <-
          (if negb (symbol asset =? "ETH")%string
           then JS.BigInt_of_number
                  (JS.parseInt (JS.slice_last 64 (EthersTx.data tx)) 16)
           else Ok value) ;;
        let newTx :=
          {| Tx.hash := hash;
             Tx.from := EthersTx.from tx;
             Tx.to := EthersTx.to tx;
             Tx.nonce :=
               JS.parseInt (JS.Number_toString (EthersTx.nonce tx)) 10;
             Tx.gasLimit := BigNumber.toBigInt (EthersTx.gasLimit tx);
             Tx.gasPrice := toBigInt_or_null (EthersTx.gasPrice tx);
             Tx.maxFeePerGas := toBigInt_or_null (EthersTx.maxFeePerGas tx);
             Tx.maxPriorityFeePerGas :=
               toBigInt_or_null (EthersTx.maxPriorityFeePerGas tx);
             Tx.value := value;
             Tx.input := def (EthersTx.data tx);
             Tx.type := EthersTx.type tx;
             Tx.blockHash :=
               JS.or_else JS.truthy_string (EthersTx.blockHash tx) null;
             Tx.blockHeight :=
               JS.or_else JS.truthy_number (EthersTx.blockNumber tx) null;
             Tx.network := network;
             Tx.asset := asset;
             Tx.r := undefined;
             Tx.s := undefined;
             Tx.v := undefined |} in
        if JS.truthy JS.truthy_string (EthersTx.r tx)
           && JS.truthy JS.truthy_string (EthersTx.s tx)
           && JS.truthy JS.truthy_number (EthersTx.v tx)
        then Ok {| Tx.hash := Tx.hash newTx;
                   Tx.from := Tx.from newTx;
                   Tx.to := Tx.to newTx;
                   Tx.nonce := Tx.nonce newTx;
                   Tx.gasLimit := Tx.gasLimit newTx;
                   Tx.gasPrice := Tx.gasPrice newTx;
                   Tx.maxFeePerGas := Tx.maxFeePerGas newTx;
                   Tx.maxPriorityFeePerGas := Tx.maxPriorityFeePerGas newTx;
                   Tx.value := Tx.value newTx;
                   Tx.input := Tx.input newTx;
                   Tx.type := Tx.type newTx;
                   Tx.blockHash := Tx.blockHash newTx;
                   Tx.blockHeight := Tx.blockHeight newTx;
                   Tx.network := Tx.network newTx;
                   Tx.asset := Tx.asset newTx;
                   Tx.r := EthersTx.r tx;
                   Tx.s := EthersTx.s tx;
                   Tx.v := EthersTx.v tx |}
        else Ok newTx
  end.

(** Convert Tally's Network type to Ethers' Network type. *)
Definition networkToEthersNetwork (network : EVMNetwork) : EthersNetwork.t :=
  let networkName :=
    if (name network =? "Ethereum")%string
    then "homestead"
    else JS.toLowerCase (name network) in
  {| EthersNetwork.name := networkName;
     EthersNetwork.chainId := JS.Number (def (chainID network)) |}.

(** ** Vocabulary of the specification *)

(** The failure classes, read off what is thrown. *)
Definition MalformedInput (e : exn) : bool :=
  match e with
  | Error m => (m =? "Malformed transaction")%string
  | _ => false
  end.

Fixpoint starts_with (p s : string) : bool :=
  match p with
  | EmptyString => true
  | String a p' =>
      match s with
      | String b s' => Ascii.eqb a b && starts_with p' s'
      | EmptyString => false
      end
  end.

Definition UnsupportedTransactionType (e : exn) : bool :=
  match e with
  | Error m => starts_with "Unknown transaction type " m
  | _ => false
  end.

Definition NumericOverflow (e : exn) : bool :=
  match e with
  | NUMERIC_FAULT_overflow => true
  | _ => false
  end.

(** The native asset of the network. *)
Definition native (asset : FungibleAsset) : bool :=
  (symbol asset =? "ETH")%string.

(** A transaction type of the data model: 0, 1 or 2. *)
Definition known_type (ty : js JS.number) : Prop :=
  ty = def (JS.Num 0) \/ ty = def (JS.Num 1) \/ ty = def (JS.Num 2).

(** A hexadecimal quantity of the subscription provider: [0x] followed by
    at least one hexadecimal digit. *)
Definition hex_quantity (x : js string) : option Z :=
  match x with
  | def (String "0" (String "x" digits)) => JS.whole_int 16 digits
  | _ => None
  end.

(** A decimal string: at least one digit, and digits only. *)
Definition decimal_string (s : string) : option Z := JS.whole_int 10 s.

(** The bytes written by a string of hexadecimal digit pairs. *)
Fixpoint hex_bytes (s : string) : option (list Z) :=
  match s with
  | EmptyString => Some []
  | String h (String l t) =>
      match JS.digit 16 h, JS.digit 16 l, hex_bytes t with
      | Some a, Some b, Some bs => Some (a * 16 + b :: bs)
      | _, _, _ => None
      end
  | String _ EmptyString => None
  end.

Definition big_endian (bytes : list Z) : Z :=
  fold_left (fun acc b => acc * 256 + b) bytes 0.

(** The last 32 bytes (64 hexadecimal characters) of the call data, read as
    a big-endian unsigned integer. *)
Definition call_data_amount (input : string) : option Z :=
  if (64 <=? String.length input)%nat
  then option_map big_endian (hex_bytes (JS.slice_last 64 input))
  else None.

(** The type/fee-field invariant of the data model, on a transaction. *)
Definition tx_fee_invariant (e : Tx.t) : Prop :=
  (Tx.type e = def (JS.Num 0) ->
     is_def (Tx.gasPrice e) = true
     /\ Tx.maxFeePerGas e = null /\ Tx.maxPriorityFeePerGas e = null)
  /\ (Tx.type e = def (JS.Num 1) \/ Tx.type e = def (JS.Num 2) ->
        is_def (Tx.maxFeePerGas e) = true
        /\ is_def (Tx.maxPriorityFeePerGas e) = true).

(** The same invariant, on a polled payload. *)
Definition polled_fee_invariant (tx : EthersTx.t) : Prop :=
  (EthersTx.type tx = def (JS.Num 0) ->
     is_def (EthersTx.gasPrice tx) = true
     /\ is_def (EthersTx.maxFeePerGas tx) = false
     /\ is_def (EthersTx.maxPriorityFeePerGas tx) = false)
  /\ (EthersTx.type tx = def (JS.Num 1) \/ EthersTx.type tx = def (JS.Num 2) ->
        is_def (EthersTx.maxFeePerGas tx) = true
        /\ is_def (EthersTx.maxPriorityFeePerGas tx) = true).

(** The same invariant, on a pushed payload whose type decodes to [ty]. *)
Definition pushed_fee_invariant (tx : WsTx.t) (ty : js JS.number) : Prop :=
  (ty = def (JS.Num 0) ->
     JS.truthy JS.truthy_string (WsTx.maxFeePerGas tx) = false
     /\ JS.truthy JS.truthy_string (WsTx.maxPriorityFeePerGas tx) = false)
  /\ (ty = def (JS.Num 1) \/ ty = def (JS.Num 2) ->
        JS.truthy JS.truthy_string (WsTx.maxFeePerGas tx) = true
        /\ JS.truthy JS.truthy_string (WsTx.maxPriorityFeePerGas tx) = true).

(** *** Payloads that differ in a few fields *)

Definition with_signature (tx : EthersTx.t) (r s : js string)
    (v : js JS.number) : EthersTx.t :=
  {| EthersTx.hash := EthersTx.hash tx;
     EthersTx.to := EthersTx.to tx;
     EthersTx.from := EthersTx.from tx;
     EthersTx.nonce := EthersTx.nonce tx;
     EthersTx.gasLimit := EthersTx.gasLimit tx;
     EthersTx.gasPrice := EthersTx.gasPrice tx;
     EthersTx.data := EthersTx.data tx;
     EthersTx.value := EthersTx.value tx;
     EthersTx.chainId := EthersTx.chainId tx;
     EthersTx.r := r;
     EthersTx.s := s;
     EthersTx.v := v;
     EthersTx.type := EthersTx.type tx;
     EthersTx.maxPriorityFeePerGas := EthersTx.maxPriorityFeePerGas tx;
     EthersTx.maxFeePerGas := EthersTx.maxFeePerGas tx;
     EthersTx.blockHash := EthersTx.blockHash tx;
     EthersTx.blockNumber := EthersTx.blockNumber tx |}.

(** [{ ...tx, hash, type }] *)
Definition with_hash_type (tx : EthersTx.t) (hash : js string)
    (type : js JS.number) : EthersTx.t :=
  {| EthersTx.hash := hash;
     EthersTx.to := EthersTx.to tx;
     EthersTx.from := EthersTx.from tx;
     EthersTx.nonce := EthersTx.nonce tx;
     EthersTx.gasLimit := EthersTx.gasLimit tx;
     EthersTx.gasPrice := EthersTx.gasPrice tx;
     EthersTx.data := EthersTx.data tx;
     EthersTx.value := EthersTx.value tx;
     EthersTx.chainId := EthersTx.chainId tx;
     EthersTx.r := EthersTx.r tx;
     EthersTx.s := EthersTx.s tx;
     EthersTx.v := EthersTx.v tx;
     EthersTx.type := type;
     EthersTx.maxPriorityFeePerGas := EthersTx.maxPriorityFeePerGas tx;
     EthersTx.maxFeePerGas := EthersTx.maxFeePerGas tx;
     EthersTx.blockHash := EthersTx.blockHash tx;
     EthersTx.blockNumber := EthersTx.blockNumber tx |}.

(** A transaction with its signature fields taken off. *)
Definition without_signature (e : Tx.t) : Tx.t :=
  {| Tx.hash := Tx.hash e;
     Tx.from := Tx.from e;
     Tx.to := Tx.to e;
     Tx.nonce := Tx.nonce e;
     Tx.gasLimit := Tx.gasLimit e;
     Tx.gasPrice := Tx.gasPrice e;
     Tx.maxFeePerGas := Tx.maxFeePerGas e;
     Tx.maxPriorityFeePerGas := Tx.maxPriorityFeePerGas e;
     Tx.value := Tx.value e;
     Tx.input := Tx.input e;
     Tx.type := Tx.type e;
     Tx.blockHash := Tx.blockHash e;
     Tx.blockHeight := Tx.blockHeight e;
     Tx.network := Tx.network e;
     Tx.asset := Tx.asset e;
     Tx.r := undefined;
     Tx.s := undefined;
     Tx.v := undefined |}.

Definition with_hashes (g : WsBlock.t) (hash parentHash : js string)
    : WsBlock.t :=
  {| WsBlock.hash := hash;
     WsBlock.number := WsBlock.number g;
     WsBlock.parentHash := parentHash;
     WsBlock.difficulty := WsBlock.difficulty g;
     WsBlock.timestamp := WsBlock.timestamp g;
     WsBlock.baseFeePerGas := WsBlock.baseFeePerGas g |}.

Definition with_fees (tx : WsTx.t) (maxFeePerGas maxPriorityFeePerGas : js string)
    : WsTx.t :=
  {| WsTx.hash := WsTx.hash tx;
     WsTx.to := WsTx.to tx;
     WsTx.from := WsTx.from tx;
     WsTx.gas := WsTx.gas tx;
     WsTx.gasPrice := WsTx.gasPrice tx;
     WsTx.maxFeePerGas := maxFeePerGas;
     WsTx.maxPriorityFeePerGas := maxPriorityFeePerGas;
     WsTx.input := WsTx.input tx;
     WsTx.r := WsTx.r tx;
     WsTx.s := WsTx.s tx;
     WsTx.v := WsTx.v tx;
     WsTx.nonce := WsTx.nonce tx;
     WsTx.value := WsTx.value tx;
     WsTx.blockHash := WsTx.blockHash tx;
     WsTx.blockHeight := WsTx.blockHeight tx;
     WsTx.blockNumber := WsTx.blockNumber tx;
     WsTx.type := WsTx.type tx |}.

Definition with_r_s (tx : WsTx.t) (r s : js string) : WsTx.t :=
  {| WsTx.hash := WsTx.hash tx;
     WsTx.to := WsTx.to tx;
     WsTx.from := WsTx.from tx;
     WsTx.gas := WsTx.gas tx;
     WsTx.gasPrice := WsTx.gasPrice tx;
     WsTx.maxFeePerGas := WsTx.maxFeePerGas tx;
     WsTx.maxPriorityFeePerGas := WsTx.maxPriorityFeePerGas tx;
     WsTx.input := WsTx.input tx;
     WsTx.r := r;
     WsTx.s := s;
     WsTx.v := WsTx.v tx;
     WsTx.nonce := WsTx.nonce tx;
     WsTx.value := WsTx.value tx;
     WsTx.blockHash := WsTx.blockHash tx;
     WsTx.blockHeight := WsTx.blockHeight tx;
     WsTx.blockNumber := WsTx.blockNumber tx;
     WsTx.type := WsTx.type tx |}.

(** *** Sample values *)

Definition mainnet : EVMNetwork := {| name := "Ethereum"; chainID := "1" |}.
Definition goerli : EVMNetwork := {| name := "Goerli"; chainID := "5" |}.
Definition ETH : FungibleAsset := {| symbol := "ETH"; decimals := 18 |}.
Definition DAI : FungibleAsset := {| symbol := "DAI"; decimals := 18 |}.

Definition alice : string := "0x00000000000000000000000000000000000a11ce".
Definition bob : string := "0x0000000000000000000000000000000000000b0b".
Definition some_hash : string :=
  "0x5c504ed432cb51138bcf09aa5e8a410dd4a1e204ef84bfed1be16dfba1b22060".

(** [transfer(address,uint256)] call data: selector, padded address, and
    the amount as 64 hexadecimal characters. *)
Definition transfer_data (amount64 : string) : string :=
  ("0xa9059cbb"
   ++ "0000000000000000000000000000000000000000000000000000000000000b0b"
   ++ amount64)%string.

(** A dynamic-fee transaction as polled, signed with [r = 0x1], [s = 0x2],
    [v = 27]. *)
Definition polled_tx (data : string) : EthersTx.t :=
  {| EthersTx.hash := def some_hash;
     EthersTx.to := def bob;
     EthersTx.from := def alice;
     EthersTx.nonce := JS.Num 7;
     EthersTx.gasLimit := 21000;
     EthersTx.gasPrice := undefined;
     EthersTx.data := data;
     EthersTx.value := 1000000000000000000;
     EthersTx.chainId := JS.Num 1;
     EthersTx.r := def "0x1";
     EthersTx.s := def "0x2";
     EthersTx.v := def (JS.Num 27);
     EthersTx.type := def (JS.Num 2);
     EthersTx.maxPriorityFeePerGas := def 1500000000;
     EthersTx.maxFeePerGas := def 30000000000;
     EthersTx.blockHash := undefined;
     EthersTx.blockNumber := undefined |}.

(** A canonical signed dynamic-fee transaction of ETH with parity [v]. *)
Definition signed_tx (v : Z) : Tx.t :=
  {| Tx.hash := def some_hash;
     Tx.from := def alice;
     Tx.to := def bob;
     Tx.nonce := JS.Num 7;
     Tx.gasLimit := 21000;
     Tx.gasPrice := null;
     Tx.maxFeePerGas := def 30000000000;
     Tx.maxPriorityFeePerGas := def 1500000000;
     Tx.value := 1000000000000000000;
     Tx.input := null;
     Tx.type := def (JS.Num 2);
     Tx.blockHash := null;
     Tx.blockHeight := null;
     Tx.network := mainnet;
     Tx.asset := ETH;
     Tx.r := def "0x1";
     Tx.s := def "0x2";
     Tx.v := def (JS.Num v) |}.

(** A block as pushed by the subscription. *)
Definition pushed_block (hash parentHash : js string) (number timestamp : string)
    : WsBlock.t :=
  {| WsBlock.hash := hash;
     WsBlock.number := def number;
     WsBlock.parentHash := parentHash;
     WsBlock.difficulty := def "0x2540be400";
     WsBlock.timestamp := def timestamp;
     WsBlock.baseFeePerGas := def "0x7" |}.

(** A transaction as pushed by the subscription. *)
Definition pushed_tx (gasPrice maxFeePerGas maxPriorityFeePerGas v : js string)
    (type : js string) : WsTx.t :=
  {| WsTx.hash := def some_hash;
     WsTx.to := def bob;
     WsTx.from := def alice;
     WsTx.gas := def "0x5208";
     WsTx.gasPrice := gasPrice;
     WsTx.maxFeePerGas := maxFeePerGas;
     WsTx.maxPriorityFeePerGas := maxPriorityFeePerGas;
     WsTx.input := def "0x";
     WsTx.r := undefined;
     WsTx.s := undefined;
     WsTx.v := v;
     WsTx.nonce := def "0x7";
     WsTx.value := def "0xde0b6b3a7640000";
     WsTx.blockHash := undefined;
     WsTx.blockHeight := undefined;
     WsTx.blockNumber := undefined;
     WsTx.type := type |}.

(** 2^53 + 1 and 100 as 32 big-endian bytes. *)
Definition amount_2_53_plus_1 : string :=
  "0000000000000000000000000000000000000000000000000020000000000001".
Definition amount_100 : string :=
  "0000000000000000000000000000000000000000000000000000000000000064".

(** A polled payload without a hash and of type 3. *)
Definition polled_no_hash_type_3 : EthersTx.t :=
  with_hash_type (polled_tx "0x") undefined (def (JS.Num 3)).

(** A polled payload with a hash and of type 3. *)
Definition polled_type_3 : EthersTx.t :=
  with_hash_type (polled_tx "0x") (def some_hash) (def (JS.Num 3)).

(** ** Vocabulary of the further properties *)

(** An optional quantity of a pushed payload and what it decodes to: a
    falsy field (absent, or the empty string) gives [absent], a hexadecimal
    quantity gives its value. *)
Definition optional_quantity (x : js string) (absent decoded : js Z) : Prop :=
  (JS.truthy JS.truthy_string x = false /\ decoded = absent)
  \/ (exists f : Z, hex_quantity x = Some f /\ decoded = def f).

(** A block with another difficulty. *)
Definition with_difficulty (b : Block.t) (difficulty : Z) : Block.t :=
  {| Block.hash := Block.hash b;
     Block.blockHeight := Block.blockHeight b;
     Block.parentHash := Block.parentHash b;
     Block.difficulty := difficulty;
     Block.timestamp := Block.timestamp b;
     Block.baseFeePerGas := Block.baseFeePerGas b;
     Block.network := Block.network b |}.

(** The polled block that carries the data of a pushed block. *)
Definition polled_counterpart (g : WsBlock.t) (number timestamp : Z)
    (baseFeePerGas : js Z) : EthersBlock.t :=
  {| EthersBlock.hash := WsBlock.hash g;
     EthersBlock.number := JS.Num number;
     EthersBlock.parentHash := WsBlock.parentHash g;
     EthersBlock.timestamp := JS.Num timestamp;
     EthersBlock.baseFeePerGas := baseFeePerGas |}.


(** What [fromPolledTx] can throw. *)
Definition polled_failure (asset : FungibleAsset) (x : exn) : Prop :=
  MalformedInput x = true
  \/ UnsupportedTransactionType x = true
  \/ (x = RangeError /\ native asset = false).

(** What [fromSubscriptionBlock] and [fromSubscriptionTx] can throw: the
    faults of the run-time and of the provider library. *)
Definition library_failure (x : exn) : Prop :=
  x = TypeError \/ x = SyntaxError \/ x = INVALID_ARGUMENT
  \/ x = NUMERIC_FAULT_overflow.

(** A polled payload with the given call data, nonce and block number. *)
Definition polled_tx_at (data : string) (nonce : JS.number)
    (blockNumber : js JS.number) : EthersTx.t :=
  {| EthersTx.hash := def some_hash;
     EthersTx.to := def bob;
     EthersTx.from := def alice;
     EthersTx.nonce := nonce;
     EthersTx.gasLimit := 21000;
     EthersTx.gasPrice := def 0;
     EthersTx.data := data;
     EthersTx.value := 1000000000000000000;
     EthersTx.chainId := JS.Num 1;
     EthersTx.r := def "0x1";
     EthersTx.s := def "0x2";
     EthersTx.v := def (JS.Num 27);
     EthersTx.type := def (JS.Num 0);
     EthersTx.maxPriorityFeePerGas := undefined;
     EthersTx.maxFeePerGas := def 0;
     EthersTx.blockHash := def "";
     EthersTx.blockNumber := blockNumber |}.

(** A pushed payload with the given signature and nonce. *)
Definition pushed_tx_signed (r s nonce : js string) : WsTx.t :=
  {| WsTx.hash := def some_hash;
     WsTx.to := def bob;
     WsTx.from := def alice;
     WsTx.gas := def "0x5208";
     WsTx.gasPrice := def "0x3b9aca00";
     WsTx.maxFeePerGas := def "";
     WsTx.maxPriorityFeePerGas := null;
     WsTx.input := def "0x";
     WsTx.r := r;
     WsTx.s := s;
     WsTx.v := def "0x1b";
     WsTx.nonce := nonce;
     WsTx.value := def "0xde0b6b3a7640000";
     WsTx.blockHash := undefined;
     WsTx.blockHeight := undefined;
     WsTx.blockNumber := undefined;
     WsTx.type := undefined |}.

(** A quantity written either way: a hexadecimal quantity, or a decimal
    string. *)
Definition quantity (x : js string) : option Z :=
  match hex_quantity x with
  | Some n => Some n
  | None =>
      match x with
      | def s => decimal_string s
      | _ => None
      end
  end.

(** ** Proof automation *)

(** Case analysis on a successful run of [txFromEthersTx]. *)
Ltac polled_cases H :=
  unfold txFromEthersTx in H;
  match type of H with
  | context [ EthersTx.hash ?tx ] => destruct (EthersTx.hash tx) eqn:?H
  end; try discriminate H;
  match type of H with
  | context [ unknown_type ?ty ] => destruct (unknown_type ty) eqn:?H
  end; try discriminate H;
  unfold bind in H;
  match type of H with
  | context [ negb ?b ] => destruct b eqn:?H
  end; cbn [negb] in H;
  try match type of H with
  | context [ JS.BigInt_of_number ?x ] =>
      destruct (JS.BigInt_of_number x) eqn:?H
  end; try discriminate H;
  match type of H with
  | context [ if ?b then _ else _ ] => destruct b eqn:?H
  end; inversion H; subst; clear H; cbn [Tx.hash Tx.from Tx.to Tx.nonce
    Tx.gasLimit Tx.gasPrice Tx.maxFeePerGas Tx.maxPriorityFeePerGas Tx.value
    Tx.input Tx.type Tx.blockHash Tx.blockHeight Tx.network Tx.asset
    Tx.r Tx.s Tx.v] in *.

(** Projections of the pushed payloads. *)
Ltac block_projections :=
  cbn [WsBlock.hash WsBlock.number WsBlock.parentHash WsBlock.difficulty
       WsBlock.timestamp WsBlock.baseFeePerGas].

Ltac pushed_projections :=
  cbn [WsTx.hash WsTx.to WsTx.from WsTx.gas WsTx.gasPrice WsTx.maxFeePerGas
       WsTx.maxPriorityFeePerGas WsTx.input WsTx.r WsTx.s WsTx.v WsTx.nonce
       WsTx.value WsTx.blockHash WsTx.blockHeight WsTx.blockNumber WsTx.type].

(** ** Facts about the run-time fragment *)

Section Digits.

Import JS.

(** The model on inputs whose outcome is well known. *)
Example parseInt_hex : parseInt "0x1f" 16 = Num 31.
Proof. reflexivity. Qed.

Example parseInt_stops_at_first_non_digit : parseInt " -12px" 10 = Num (-12).
Proof. reflexivity. Qed.

Example parseInt_of_nothing : parseInt "0x" 16 = NaN.
Proof. reflexivity. Qed.

Example parseInt_rounds_to_double :
  parseInt "9007199254740993" 10 = Num 9007199254740992.
Proof. reflexivity. Qed.

Example toString_pads_with_zeros :
  Number_toString (Num (2 ^ 60)) = "1152921504606847000".
Proof. vm_compute. reflexivity. Qed.

Example toString_exponent :
  Number_toString (Num (2 ^ 70)) = "1.1805916207174113e+21".
Proof. vm_compute. reflexivity. Qed.

Example BigInt_of_hex : BigInt (def "0x2540be400") = Ok 10000000000.
Proof. reflexivity. Qed.

Example BigInt_of_blank : BigInt (def "") = Ok 0.
Proof. reflexivity. Qed.

Example BigInt_of_signed_hex : BigInt (def "-0x10") = Throw SyntaxError.
Proof. reflexivity. Qed.

Example BigNumber_from_hex :
  BigNumber.from (def "0x2540be400") = Ok 10000000000
  /\ BigNumber.from (def "0x0") = Ok 0
  /\ BigNumber.from (def "0x") = Throw INVALID_ARGUMENT.
Proof. repeat split. Qed.

Example toNumber_at_the_ceiling :
  BigNumber.toNumber (2 ^ 53 - 1) = Ok (Num 9007199254740991)
  /\ BigNumber.toNumber (2 ^ 53) = Throw NUMERIC_FAULT_overflow.
Proof. split; reflexivity. Qed.

Lemma digit_bound (R : Z) (c : ascii) (d : Z) :
  digit R c = Some d -> 0 <= d < R.
Proof.
  unfold digit, digit_value.
  destruct ((48 <=? code c) && (code c <=? 57)) eqn:E1;
    [| destruct ((97 <=? code c) && (code c <=? 122)) eqn:E2;
       [| destruct ((65 <=? code c) && (code c <=? 90)) eqn:E3;
          [| discriminate ] ] ];
    match goal with
    | |- context [ ?x <? R ] => destruct (Z.ltb_spec x R) as [Hlt | Hge]
    end; intros Heq; inversion Heq; subst; lia.
Qed.

(** A digit of a radix up to 16 is no blank, no sign and no [x]. *)
Lemma digit_plain (R : Z) (c : ascii) (d : Z) :
  R <= 16 -> digit R c = Some d ->
  is_space c = false /\ is_char c "-" "-" = false
  /\ is_char c "+" "+" = false /\ is_char c "x" "X" = false.
Proof.
  intros HR H. pose proof (digit_bound _ _ _ H) as Hb.
  unfold digit in H.
  destruct (digit_value c) as [k|] eqn:Ek; [| discriminate ].
  destruct (k <? R) eqn:Ekr; [| discriminate ].
  inversion H; subst k. clear H Ekr.
  assert (Hd : d < 16) by lia. clear Hb HR.
  destruct c as [[] [] [] [] [] [] [] []];
    vm_compute in Ek; try discriminate;
    try (repeat split; reflexivity);
    inversion Ek; subst d; exfalso; lia.
Qed.

Lemma scan_bound (R : Z) (s : string) (acc : Z) :
  0 < R -> 0 <= acc ->
  0 <= scan R s acc < (acc + 1) * R ^ Z.of_nat (String.length s).
Proof.
  intros HR. revert acc.
  induction s as [| c t IH]; intros acc Hacc; simpl scan.
  - simpl. lia.
  - destruct (digit R c) as [d|] eqn:Ed.
    + pose proof (digit_bound _ _ _ Ed) as Hd.
      specialize (IH (acc * R + d) ltac:(nia)).
      change (String.length (String c t)) with (S (String.length t)).
      rewrite Nat2Z.inj_succ, Z.pow_succ_r by lia.
      assert (0 < R ^ Z.of_nat (String.length t)) by (apply Z.pow_pos_nonneg; lia).
      nia.
    + assert (0 < R ^ Z.of_nat (String.length (String c t)))
        by (apply Z.pow_pos_nonneg; lia).
      nia.
Qed.

(** [parseInt] of a numeral: nothing to trim, no sign, no prefix. *)
Lemma parseInt_numeral (R : Z) (s : string) :
  R <= 16 -> s <> "" -> all_digits R s = true ->
  parseInt s R = number_of_Z (scan R s 0).
Proof.
  intros HR Hne Hall.
  destruct s as [| c t]; [ congruence |].
  simpl in Hall. destruct (digit R c) as [d|] eqn:Ed; [| discriminate ].
  destruct (digit_plain R c d HR Ed) as (Hsp & Hm & Hp & _).
  unfold parseInt. simpl trim_start. rewrite Hsp, Hm, Hp.
  assert (Hpre : forall c1 t', t = String c1 t' -> is_char c1 "x" "X" = false).
  { intros c1 t' ->. simpl in Hall.
    destruct (digit R c1) as [d1|] eqn:Ed1; [| discriminate ].
    now destruct (digit_plain R c1 d1 HR Ed1) as (_ & _ & _ & Hx). }
  destruct t as [| c1 t'].
  - unfold leading_int. rewrite Ed. reflexivity.
  - rewrite (Hpre c1 t' eq_refl), andb_false_r.
    unfold leading_int. rewrite Ed. reflexivity.
Qed.

Lemma round53_safe (z : Z) :
  Z.abs z <= MAX_SAFE_INTEGER -> round53 z = z.
Proof.
  unfold MAX_SAFE_INTEGER, round53. intros Hz.
  destruct (Z.eq_dec (Z.abs z) 0) as [E0 | Hnz].
  - rewrite E0. reflexivity.
  - assert (Hlog : Z.log2 (Z.abs z) < 53)
      by (apply Z.log2_lt_pow2; lia).
    destruct (Z.leb_spec (Z.log2 (Z.abs z) + 1) 53); [ reflexivity | lia ].
Qed.

Lemma number_of_Z_safe (z : Z) :
  Z.abs z <= MAX_SAFE_INTEGER -> number_of_Z z = Num z.
Proof.
  intros Hz. unfold number_of_Z. rewrite (round53_safe z Hz).
  assert (Hbig : MAX_SAFE_INTEGER < 2 ^ 1024) by reflexivity.
  destruct (Z.leb_spec (2 ^ 1024) (Z.abs z)); [ lia | reflexivity ].
Qed.

(** Rounding at most doubles the magnitude. *)
Lemma round53_le_double (z : Z) :
  0 <= z -> 0 <= round53 z <= 2 * z.
Proof.
  intros Hz. unfold round53. rewrite (Z.abs_eq z Hz).
  destruct (Z.leb_spec (Z.log2 z + 1) 53) as [Hs | Hb]; [ lia |].
  assert (Hpos : 0 < z).
  { destruct (Z.eq_dec z 0) as [-> | ]; [ simpl in Hb; lia | lia ]. }
  set (sh := Z.log2 z + 1 - 53) in *.
  assert (Hsh : 0 < sh) by (unfold sh; lia).
  rewrite !Z.shiftl_mul_pow2, Z.shiftr_div_pow2 by lia.
  assert (Hp : 0 < 2 ^ sh) by (apply Z.pow_pos_nonneg; lia).
  assert (Hple : 2 ^ sh <= z).
  { transitivity (2 ^ Z.log2 z).
    - apply Z.pow_le_mono_r; unfold sh; lia.
    - apply Z.log2_spec; lia. }
  pose proof (Z.div_mod z (2 ^ sh) ltac:(lia)) as Hdm.
  pose proof (Z.mod_pos_bound z (2 ^ sh) Hp) as Hm.
  assert (Hq : 0 <= z / 2 ^ sh) by (apply Z.div_pos; lia).
  rewrite (Z.sgn_pos z Hpos).
  match goal with
  | |- context [ if ?b then _ else _ ] => destruct b
  end; nia.
Qed.

Lemma number_of_Z_finite (z : Z) :
  0 <= z < 2 ^ 256 -> number_of_Z z = Num (round53 z).
Proof.
  intros Hz. unfold number_of_Z.
  pose proof (round53_le_double z (proj1 Hz)) as Hr.
  assert (Hbig : 2 * 2 ^ 256 < 2 ^ 1024) by reflexivity.
  destruct (Z.leb_spec (2 ^ 1024) (Z.abs (round53 z))); [ lia | reflexivity ].
Qed.

(** *** Printing a number and reading it back *)

Lemma digit_of_digit_char (d : Z) :
  0 <= d < 10 -> digit 10 (digit_char d) = Some d.
Proof.
  intros Hd.
  assert (Hc : d = 0 \/ d = 1 \/ d = 2 \/ d = 3 \/ d = 4 \/ d = 5 \/ d = 6
               \/ d = 7 \/ d = 8 \/ d = 9) by lia.
  repeat (destruct Hc as [-> | Hc]; [ reflexivity |]).
  subst d. reflexivity.
Qed.

Lemma scan_digit (R : Z) (c : ascii) (t : string) (acc d : Z) :
  digit R c = Some d -> scan R (String c t) acc = scan R t (acc * R + d).
Proof. intros H. simpl. now rewrite H. Qed.

Lemma scan_dec_digits (f : nat) :
  forall (n : Z) (rest : string),
    0 <= n < 10 ^ Z.of_nat f ->
    exists k : nat, forall acc : Z,
      scan 10 (dec_digits f n rest) acc
      = scan 10 rest (acc * 10 ^ Z.of_nat k + n).
Proof.
  induction f as [| f IH]; intros n rest Hn.
  - exists 0%nat. intros acc. simpl in *. f_equal. lia.
  - simpl dec_digits.
    pose proof (Z.mod_pos_bound n 10 ltac:(lia)) as Hm.
    destruct (Z.ltb_spec n 10) as [Hlt | Hge].
    + exists 1%nat. intros acc.
      rewrite (scan_digit _ _ _ _ _ (digit_of_digit_char _ Hm)).
      rewrite Z.mod_small by lia. f_equal.
    + rewrite Nat2Z.inj_succ, Z.pow_succ_r in Hn by lia.
      assert (Hq : 0 <= n / 10 < 10 ^ Z.of_nat f).
      { split; [ apply Z.div_pos; lia |].
        apply Z.div_lt_upper_bound; lia. }
      destruct (IH (n / 10) (String (digit_char (n mod 10)) rest) Hq)
        as [k Hk].
      exists (S k). intros acc. rewrite Hk.
      assert (Hpow : 10 ^ Z.of_nat (S k) = 10 * 10 ^ Z.of_nat k)
        by (rewrite Nat2Z.inj_succ, Z.pow_succ_r by lia; reflexivity).
      rewrite Hpow.
      rewrite (scan_digit _ _ _ _ _ (digit_of_digit_char _ Hm)). f_equal.
      pose proof (Z.div_mod n 10 ltac:(lia)). lia.
Qed.

Lemma all_digits_dec_digits (f : nat) :
  forall (n : Z) (rest : string),
    0 <= n ->
    all_digits 10 (dec_digits f n rest) = all_digits 10 rest.
Proof.
  induction f as [| f IH]; intros n rest Hn; [ reflexivity |].
  simpl dec_digits.
  pose proof (Z.mod_pos_bound n 10 ltac:(lia)) as Hm.
  destruct (n <? 10).
  - simpl. now rewrite (digit_of_digit_char _ Hm).
  - rewrite IH by (apply Z.div_pos; lia).
    simpl. now rewrite (digit_of_digit_char _ Hm).
Qed.

Lemma dec_digits_nonempty (f : nat) (n : Z) (rest : string) :
  dec_digits (S f) n rest <> "".
Proof.
  revert n rest. induction f as [| f IH]; intros n rest.
  - simpl. destruct (n <? 10); discriminate.
  - change (dec_digits (S (S f)) n rest)
      with (if n <? 10 then String (digit_char (n mod 10)) rest
            else dec_digits (S f) (n / 10) (String (digit_char (n mod 10)) rest)).
    destruct (n <? 10); [ discriminate | apply IH ].
Qed.

Lemma dec_digits_length (f : nat) :
  forall (n : Z) (rest : string) (k : nat),
    (1 <= k)%nat -> 0 <= n < 10 ^ Z.of_nat k ->
    (String.length (dec_digits f n rest) <= k + String.length rest)%nat.
Proof.
  induction f as [| f IH]; intros n rest k Hk Hn; simpl dec_digits.
  - lia.
  - destruct (Z.ltb_spec n 10) as [Hlt | Hge].
    + simpl. lia.
    + destruct k as [| k]; [ lia |].
      rewrite Nat2Z.inj_succ, Z.pow_succ_r in Hn by lia.
      assert (Hk1 : (1 <= k)%nat).
      { destruct k; [ simpl in Hn; lia | lia ]. }
      assert (Hq : 0 <= n / 10 < 10 ^ Z.of_nat k).
      { split; [ apply Z.div_pos; lia |].
        apply Z.div_lt_upper_bound; lia. }
      specialize (IH (n / 10) (String (digit_char (n mod 10)) rest) k Hk1 Hq).
      simpl in IH. lia.
Qed.

Lemma decimal_fuel (n : Z) :
  0 <= n -> 0 <= n < 10 ^ Z.of_nat (S (Z.to_nat (Z.log2 n))).
Proof.
  intros Hn. split; [ assumption |].
  rewrite Nat2Z.inj_succ, Z2Nat.id by apply Z.log2_nonneg.
  destruct (Z.eq_dec n 0) as [-> | Hnz]; [ reflexivity |].
  apply Z.lt_le_trans with (2 ^ Z.succ (Z.log2 n)).
  - apply Z.log2_spec. lia.
  - apply Z.pow_le_mono_l. pose proof (Z.log2_nonneg n). lia.
Qed.

(** Reading a decimal numeral gives the number back. *)
Lemma parseInt_decimal (n : Z) :
  0 <= n -> parseInt (decimal n) 10 = number_of_Z n.
Proof.
  intros Hn. unfold decimal.
  rewrite parseInt_numeral.
  - destruct (scan_dec_digits _ n "" (decimal_fuel n Hn)) as [k Hk].
    rewrite Hk. simpl. reflexivity.
  - lia.
  - apply dec_digits_nonempty.
  - now rewrite all_digits_dec_digits.
Qed.

(** A safe natural number survives [parseInt(n.toString(), 10)]. *)
Lemma parseInt_toString_safe (n : Z) :
  0 <= n <= MAX_SAFE_INTEGER ->
  parseInt (Number_toString (Num n)) 10 = Num n.
Proof.
  intros Hn. unfold Number_toString.
  destruct (Z.eqb_spec n 0) as [-> | Hnz]; [ reflexivity |].
  destruct (Z.ltb_spec n 0) as [Hneg | _]; [ lia |].
  unfold positive_toString, shortest.
  destruct (Z.leb_spec n MAX_SAFE_INTEGER) as [_ | Hgt]; [| lia ].
  assert (Hlen : (String.length (decimal n) <= 21)%nat).
  { unfold decimal.
    pose proof (dec_digits_length (S (Z.to_nat (Z.log2 n))) n "" 16
                  ltac:(lia)) as Hl.
    assert (Hb : MAX_SAFE_INTEGER < 10 ^ Z.of_nat 16) by reflexivity.
    specialize (Hl ltac:(lia)). simpl String.length in Hl at 2. lia. }
  apply Nat.leb_le in Hlen. rewrite Hlen.
  rewrite parseInt_decimal by lia.
  apply number_of_Z_safe. lia.
Qed.

(** *** Strings without blanks are left alone by [trim] *)

Lemma trim_start_no_space (s : string) :
  no_space s = true -> trim_start s = s.
Proof.
  destruct s as [| c t]; [ reflexivity |]. simpl.
  destruct (is_space c); [ discriminate | reflexivity ].
Qed.

Lemma no_space_rev_string (s : string) :
  forall acc, no_space s = true -> no_space acc = true ->
              no_space (rev_string s acc) = true.
Proof.
  induction s as [| c t IH]; intros acc Hs Hacc; [ assumption |].
  simpl in *. apply andb_prop in Hs as [Hc Ht].
  apply IH; [ assumption |]. simpl. now rewrite Hc.
Qed.

Lemma rev_string_rev_string (s : string) :
  forall a b, rev_string (rev_string s a) b = rev_string a (s ++ b)%string.
Proof.
  induction s as [| c t IH]; intros a b; [ reflexivity |].
  simpl. now rewrite IH.
Qed.

Lemma append_empty (s : string) : (s ++ "")%string = s.
Proof. induction s as [| c t IH]; simpl; [ | rewrite IH ]; reflexivity. Qed.

Lemma trim_no_space (s : string) : no_space s = true -> trim s = s.
Proof.
  intros Hs. unfold trim.
  rewrite (trim_start_no_space s Hs).
  rewrite trim_start_no_space by now apply no_space_rev_string.
  rewrite rev_string_rev_string. simpl. apply append_empty.
Qed.

Lemma all_digits_no_space (R : Z) (s : string) :
  R <= 16 -> all_digits R s = true -> no_space s = true.
Proof.
  intros HR. induction s as [| c t IH]; intros Hall; [ reflexivity |].
  simpl in *. destruct (digit R c) as [d|] eqn:Ed; [| discriminate ].
  destruct (digit_plain R c d HR Ed) as (Hsp & _).
  rewrite Hsp. simpl. now apply IH.
Qed.

Lemma whole_int_all_digits (R : Z) (s : string) (z : Z) :
  whole_int R s = Some z ->
  s <> "" /\ all_digits R s = true /\ z = scan R s 0.
Proof.
  unfold whole_int. destruct s as [| c t]; [ discriminate |].
  destruct (all_digits R (String c t)) eqn:Hall; [| discriminate ].
  intros H. inversion H. repeat split. discriminate.
Qed.

Lemma whole_int_nonneg (R : Z) (s : string) (z : Z) :
  0 < R -> whole_int R s = Some z -> 0 <= z.
Proof.
  intros HR H. apply whole_int_all_digits in H as (_ & _ & ->).
  apply (scan_bound R s 0 HR). lia.
Qed.

End Digits.

(** *** Hexadecimal quantities under [BigNumber.from] and [BigInt] *)

Lemma hex_quantity_shape (x : js string) (z : Z) :
  hex_quantity x = Some z ->
  exists digits, x = def (String "0" (String "x" digits))
                 /\ JS.whole_int 16 digits = Some z.
Proof.
  unfold hex_quantity.
  destruct x as [| | s]; try discriminate.
  destruct s as [| c0 s]; [ discriminate |].
  destruct c0 as [[] [] [] [] [] [] [] []]; try discriminate.
  destruct s as [| c1 s]; [ discriminate |].
  destruct c1 as [[] [] [] [] [] [] [] []]; try discriminate.
  intros H. now exists s.
Qed.

Lemma BigNumber_from_hex_quantity (x : js string) (z : Z) :
  hex_quantity x = Some z -> BigNumber.from x = Ok z.
Proof.
  intros H. apply hex_quantity_shape in H as (digits & -> & Hd).
  unfold BigNumber.from, BigNumber.from_string.
  change (JS.is_char "0" "-" "-") with false. cbv iota.
  change (JS.is_char "0" "0" "0" && JS.is_char "x" "x" "x") with true.
  cbv iota. now rewrite Hd.
Qed.

Lemma BigInt_hex_quantity (x : js string) (z : Z) :
  hex_quantity x = Some z -> JS.BigInt x = Ok z.
Proof.
  intros H. apply hex_quantity_shape in H as (digits & -> & Hd).
  pose proof (whole_int_all_digits _ _ _ Hd) as (Hne & Hall & _).
  unfold JS.BigInt, JS.StringToBigInt.
  rewrite trim_no_space.
  - unfold JS.prefixed_int.
    change (JS.is_char "0" "0" "0") with true.
    change (JS.is_char "x" "x" "X") with true.
    cbv iota. now rewrite Hd.
  - simpl. apply (all_digits_no_space 16); [ lia | assumption ].
Qed.

Lemma toNumber_safe (z : Z) :
  0 <= z <= JS.MAX_SAFE_INTEGER -> BigNumber.toNumber z = Ok (JS.Num z).
Proof.
  intros Hz. unfold BigNumber.toNumber.
  destruct (Z.leb_spec (Z.abs z) JS.MAX_SAFE_INTEGER); [ reflexivity | lia ].
Qed.

Lemma toNumber_overflow (z : Z) :
  JS.MAX_SAFE_INTEGER < z -> BigNumber.toNumber z = Throw NUMERIC_FAULT_overflow.
Proof.
  intros Hz. unfold BigNumber.toNumber.
  assert (0 < JS.MAX_SAFE_INTEGER) by reflexivity.
  destruct (Z.leb_spec (Z.abs z) JS.MAX_SAFE_INTEGER); [ lia | reflexivity ].
Qed.

(** *** The call-data tail under [parseInt] *)

Lemma hex_bytes_scan (n : nat) :
  forall (s : string) (bs : list Z),
    (String.length s <= n)%nat -> hex_bytes s = Some bs ->
    JS.all_digits 16 s = true
    /\ forall acc, JS.scan 16 s acc
                   = fold_left (fun a b => a * 256 + b) bs acc.
Proof.
  induction n as [| n IH]; intros s bs Hlen Hb.
  - destruct s; [| simpl in Hlen; lia ].
    inversion Hb. split; reflexivity.
  - destruct s as [| h [| l t]]; [ inversion Hb; split; reflexivity
                                 | discriminate |].
    simpl in Hb.
    destruct (JS.digit 16 h) as [a|] eqn:Eh; [| discriminate ].
    destruct (JS.digit 16 l) as [b|] eqn:El; [| discriminate ].
    destruct (hex_bytes t) as [bs'|] eqn:Et; [| discriminate ].
    inversion Hb; subst bs. clear Hb.
    destruct (IH t bs' ltac:(simpl in Hlen; lia) Et) as [Hall Hscan].
    split.
    + simpl. now rewrite Eh, El.
    + intros acc.
      rewrite (scan_digit _ _ _ _ _ Eh), (scan_digit _ _ _ _ _ El), Hscan.
      simpl fold_left. f_equal. lia.
Qed.

Lemma drop_length (k : nat) :
  forall s, String.length (JS.drop k s) = (String.length s - k)%nat.
Proof.
  induction k as [| k IH]; intros s.
  - simpl. destruct s; simpl; lia.
  - destruct s as [| c t]; [ reflexivity |]. simpl. apply IH.
Qed.

Lemma slice_last_length (n : nat) (s : string) :
  (n <= String.length s)%nat -> String.length (JS.slice_last n s) = n.
Proof. intros H. unfold JS.slice_last. rewrite drop_length. lia. Qed.

(** On call data that ends in 64 hexadecimal characters, [parseInt] reads
    the amount and rounds it to a double. *)
Lemma parseInt_call_data (input : string) (n : Z) :
  call_data_amount input = Some n ->
  0 <= n < 2 ^ 256
  /\ JS.parseInt (JS.slice_last 64 input) 16 = JS.Num (JS.round53 n).
Proof.
  unfold call_data_amount.
  destruct (Nat.leb_spec 64 (String.length input)) as [Hlen | ];
    [| discriminate ].
  pose proof (slice_last_length 64 input Hlen) as Hl.
  destruct (hex_bytes (JS.slice_last 64 input)) as [bs|] eqn:Eb;
    [| discriminate ].
  intros H. inversion H as [Hn]. clear H.
  destruct (hex_bytes_scan _ _ _ (Nat.le_refl _) Eb) as [Hall Hscan].
  unfold big_endian. rewrite <- Hscan.
  pose proof (scan_bound 16 (JS.slice_last 64 input) 0 ltac:(lia) ltac:(lia))
    as Hbound.
  rewrite Hl in Hbound.
  change ((0 + 1) * 16 ^ Z.of_nat 64) with (2 ^ 256) in Hbound.
  split; [ assumption |].
  rewrite parseInt_numeral; [ now apply number_of_Z_finite | lia | | assumption ].
  intros E. rewrite E in Hl. discriminate.
Qed.

(** *** The polled transaction, case by case *)

Lemma truthy_is_def {A : Type} (t : A -> bool) (x : js A) :
  JS.truthy t x = true -> is_def x = true.
Proof. destruct x; simpl; congruence. Qed.

Lemma unknown_type_spec (ty : js JS.number) :
  unknown_type ty = false <-> known_type ty.
Proof.
  unfold known_type.
  destruct ty as [| | [| b | z]]; simpl; split; intros H;
    try discriminate;
    try (destruct H as [H | [H | H]]; discriminate).
  - assert (Hz : z = 0 \/ z = 1 \/ z = 2) by lia.
    destruct Hz as [-> | [-> | ->]]; auto.
  - destruct H as [H | [H | H]]; inversion H; reflexivity.
Qed.

(** The signature fields never decide whether the payload is converted. *)
Lemma signature_never_decides_success (tx : EthersTx.t)
    (asset : FungibleAsset) (network : EVMNetwork)
    (r s : js string) (v : js JS.number) :
  returns (txFromEthersTx (with_signature tx r s v) asset network)
  = returns (txFromEthersTx tx asset network).
Proof.
  unfold txFromEthersTx, with_signature.
  cbn [EthersTx.hash EthersTx.to EthersTx.from EthersTx.nonce
       EthersTx.gasLimit EthersTx.gasPrice EthersTx.data EthersTx.value
       EthersTx.chainId EthersTx.r EthersTx.s EthersTx.v EthersTx.type
       EthersTx.maxPriorityFeePerGas EthersTx.maxFeePerGas
       EthersTx.blockHash EthersTx.blockNumber].
  destruct (EthersTx.hash tx); try reflexivity;
    (destruct (unknown_type (EthersTx.type tx)); [ reflexivity |]);
    unfold bind;
    match goal with
    | |- context [ negb ?b ] => destruct b
    end; cbn [negb];
    try match goal with
    | |- context [ JS.BigInt_of_number ?x ] =>
        destruct (JS.BigInt_of_number x)
    end; try reflexivity;
    repeat match goal with
    | |- context [ if ?b then _ else _ ] => destruct b
    end; reflexivity.
Qed.

(** Native asset: the value is the transfer-amount field. *)
Lemma value_of_native (tx : EthersTx.t) (asset : FungibleAsset)
    (network : EVMNetwork) (e : Tx.t) :
  native asset = true ->
  txFromEthersTx tx asset network = Ok e ->
  Tx.value e = BigNumber.toBigInt (EthersTx.value tx).
Proof.
  unfold native. intros Hn H.
  polled_cases H; try congruence; reflexivity.
Qed.

(** Any other asset: the value is the call-data amount as a double. *)
Lemma value_of_token (tx : EthersTx.t) (asset : FungibleAsset)
    (network : EVMNetwork) (e : Tx.t) (n : Z) :
  native asset = false ->
  call_data_amount (EthersTx.data tx) = Some n ->
  txFromEthersTx tx asset network = Ok e ->
  Tx.value e = JS.round53 n.
Proof.
  unfold native. intros Hn Hc H.
  destruct (parseInt_call_data _ _ Hc) as [_ Hp].
  polled_cases H; try congruence;
    match goal with
    | Hv : JS.BigInt_of_number _ = Ok _ |- _ =>
        rewrite Hp in Hv; inversion Hv; reflexivity
    end.
Qed.

(** Up to [MAX_SAFE_INTEGER] the call-data amount is recovered exactly. *)
Lemma value_of_token_safe (tx : EthersTx.t) (asset : FungibleAsset)
    (network : EVMNetwork) (e : Tx.t) (n : Z) :
  native asset = false ->
  call_data_amount (EthersTx.data tx) = Some n ->
  n <= JS.MAX_SAFE_INTEGER ->
  txFromEthersTx tx asset network = Ok e ->
  Tx.value e = n.
Proof.
  intros Hn Hc Hs H.
  rewrite (value_of_token tx asset network e n Hn Hc H).
  destruct (parseInt_call_data _ _ Hc) as [Hb _].
  apply round53_safe. lia.
Qed.

(** ** The claims *)

(** C1 (the code departs from the claim).  For a non-native asset the value
    should be the last 32 bytes of the call data read as a big-endian
    unsigned integer.  On a token transfer of 2^53 + 1 units the call data
    encodes 9007199254740993 and the converter returns 9007199254740992: the
    amount goes through [parseInt], hence through a double, before it
    becomes a bigint.  (Up to 2^53 - 1 the amount is exact:
    [value_of_token_safe]; for the native asset the value is the transfer
    amount: [value_of_native].) *)
Theorem C1_token_value_is_rounded :
  call_data_amount (EthersTx.data (polled_tx (transfer_data amount_2_53_plus_1)))
  = Some 9007199254740993
  /\ exists e : Tx.t,
       txFromEthersTx (polled_tx (transfer_data amount_2_53_plus_1)) DAI mainnet
       = Ok e
       /\ Tx.value e = 9007199254740992.
Proof.
  split; [ reflexivity |].
  eexists. split; [ vm_compute; reflexivity | reflexivity ].
Qed.

(** C2, counterexample.  A payload of type 3 that has no hash does not fail
    with UnsupportedTransactionType: the hash is checked first and the
    failure is "Malformed transaction". *)
Lemma C2_missing_hash_counterexample :
  ~ known_type (EthersTx.type polled_no_hash_type_3)
  /\ txFromEthersTx polled_no_hash_type_3 ETH mainnet
     = Throw (Error "Malformed transaction")
  /\ ~ (exists e : exn,
          txFromEthersTx polled_no_hash_type_3 ETH mainnet = Throw e
          /\ UnsupportedTransactionType e = true).
Proof.
  repeat split.
  - intros [H | [H | H]]; discriminate H.
  - intros (e & He & Hu). vm_compute in He. inversion He; subst e.
    vm_compute in Hu. discriminate Hu.
Qed.

(** C2, amended.  A payload whose type is not 0, 1 or 2 never yields a
    transaction.  When its hash is present the failure is
    UnsupportedTransactionType; when its hash is absent the failure is
    MalformedInput, whatever the type.  A payload with a hash, a type in
    {0, 1, 2} and, for a non-native asset, call data ending in 64
    hexadecimal characters, is converted, and the type is kept. *)
Theorem C2_type_gate (tx : EthersTx.t) (asset : FungibleAsset)
    (network : EVMNetwork) :
  (~ known_type (EthersTx.type tx) ->
     returns (txFromEthersTx tx asset network) = false)
  /\ (EthersTx.hash tx <> undefined -> ~ known_type (EthersTx.type tx) ->
        exists e : exn,
          txFromEthersTx tx asset network = Throw e
          /\ UnsupportedTransactionType e = true)
  /\ (EthersTx.hash tx = undefined ->
        exists e : exn,
          txFromEthersTx tx asset network = Throw e
          /\ MalformedInput e = true)
  /\ (EthersTx.hash tx <> undefined -> known_type (EthersTx.type tx) ->
        native asset = true \/ call_data_amount (EthersTx.data tx) <> None ->
        exists e : Tx.t,
          txFromEthersTx tx asset network = Ok e
          /\ Tx.type e = EthersTx.type tx).
Proof.
  repeat split.
  - intros Hk. unfold txFromEthersTx.
    destruct (unknown_type (EthersTx.type tx)) eqn:Eu.
    + destruct (EthersTx.hash tx); reflexivity.
    + apply unknown_type_spec in Eu. contradiction.
  - intros Hh Hk. unfold txFromEthersTx.
    destruct (unknown_type (EthersTx.type tx)) eqn:Eu.
    + destruct (EthersTx.hash tx); [ congruence | |];
        (eexists; split; [ reflexivity | reflexivity ]).
    + apply unknown_type_spec in Eu. contradiction.
  - intros Hh. unfold txFromEthersTx. rewrite Hh.
    eexists. split; reflexivity.
  - intros Hh Hk Hv. apply unknown_type_spec in Hk.
    assert (Hval : exists value,
               (if negb (symbol asset =? "ETH")%string
                then JS.BigInt_of_number
                       (JS.parseInt (JS.slice_last 64 (EthersTx.data tx)) 16)
                else Ok (BigNumber.toBigInt (EthersTx.value tx))) = Ok value).
    { unfold native in Hv.
      destruct (symbol asset =? "ETH")%string; simpl negb; cbv iota.
      - eexists; reflexivity.
      - destruct Hv as [Hv | Hv]; [ discriminate |].
        destruct (call_data_amount (EthersTx.data tx)) as [n|] eqn:Ec;
          [| congruence ].
        destruct (parseInt_call_data _ _ Ec) as [_ Hp].
        rewrite Hp. eexists; reflexivity. }
    destruct Hval as [value Hval].
    unfold txFromEthersTx. rewrite Hk. cbv zeta. rewrite Hval.
    unfold bind.
    destruct (EthersTx.hash tx); [ congruence | |];
      match goal with
      | |- context [ if ?b then _ else _ ] => destruct b
      end; eexists; split; reflexivity.
Qed.

(** C2, witness: the sample payloads of type 2 and of type 3. *)
Lemma C2_type_gate_witness :
  (exists e : Tx.t,
     txFromEthersTx (polled_tx "0x") ETH mainnet = Ok e
     /\ Tx.type e = def (JS.Num 2))
  /\ (exists e : exn,
        txFromEthersTx polled_type_3 ETH mainnet = Throw e
        /\ UnsupportedTransactionType e = true).
Proof.
  split.
  - apply (proj2 (proj2 (proj2 (C2_type_gate (polled_tx "0x") ETH mainnet)))).
    + discriminate.
    + right. right. reflexivity.
    + left. reflexivity.
  - apply (proj1 (proj2 (C2_type_gate polled_type_3 ETH mainnet))).
    + discriminate.
    + intros [H | [H | H]]; discriminate H.
Defined.

(** C3.  Whenever a polled payload is converted, the result is the signed
    variant exactly when [r], [s] and [v] are all present and truthy, and it
    then carries the three verbatim; otherwise it is the unsigned variant,
    with none of the three.  Nothing else depends on the signature: with any
    other [r], [s], [v] the payload is converted to the same transaction up
    to the signature fields. *)
Theorem C3_signed_iff_signature (tx : EthersTx.t) (asset : FungibleAsset)
    (network : EVMNetwork) (e : Tx.t) :
  txFromEthersTx tx asset network = Ok e ->
  let complete :=
    JS.truthy JS.truthy_string (EthersTx.r tx)
    && JS.truthy JS.truthy_string (EthersTx.s tx)
    && JS.truthy JS.truthy_number (EthersTx.v tx) in
  Tx.signed e = complete
  /\ (complete = true ->
        Tx.r e = EthersTx.r tx /\ Tx.s e = EthersTx.s tx
        /\ Tx.v e = EthersTx.v tx)
  /\ (complete = false ->
        Tx.r e = undefined /\ Tx.s e = undefined /\ Tx.v e = undefined)
  /\ (forall (r s : js string) (v : js JS.number),
        exists e' : Tx.t,
          txFromEthersTx (with_signature tx r s v) asset network = Ok e'
          /\ without_signature e' = without_signature e).
Proof.
  intros H complete.
  assert (Hother : forall (r s : js string) (v : js JS.number),
             exists e' : Tx.t,
               txFromEthersTx (with_signature tx r s v) asset network = Ok e'
               /\ without_signature e' = without_signature e).
  { intros r s v. unfold txFromEthersTx in *. simpl.
    destruct (EthersTx.hash tx); try discriminate H;
      (destruct (unknown_type (EthersTx.type tx)); [ discriminate H |]);
      unfold bind in *;
      match type of H with
      | context [ negb ?b ] => destruct b
      end; cbn [negb] in *;
      try match type of H with
      | context [ JS.BigInt_of_number ?x ] =>
          destruct (JS.BigInt_of_number x)
      end; try discriminate H;
      match type of H with
      | context [ if ?b then _ else _ ] => destruct b
      end; inversion H; subst e;
      match goal with
      | |- context [ if ?b then _ else _ ] => destruct b
      end; eexists; split; reflexivity. }
  subst complete.
  polled_cases H; (split; [| split; [| split; [| exact Hother ] ] ]);
    try (intros Hc; try discriminate Hc; repeat split; reflexivity);
    unfold Tx.signed; cbn [Tx.r Tx.s Tx.v]; try reflexivity;
    match goal with
    | Hc : _ && _ && _ = true |- _ =>
        apply andb_prop in Hc as [Hc Hv]; apply andb_prop in Hc as [Hr Hs];
        now rewrite (truthy_is_def _ _ Hr), (truthy_is_def _ _ Hs),
          (truthy_is_def _ _ Hv)
    end.
Qed.

(** C3, witness: [r = "0x1"], [s = "0x2"], [v = 27] gives the signed variant;
    with [r] left out the variant is unsigned. *)
Lemma C3_signed_iff_signature_witness :
  (exists e : Tx.t,
     txFromEthersTx (polled_tx "0x") ETH mainnet = Ok e
     /\ Tx.signed e = true
     /\ Tx.r e = def "0x1" /\ Tx.s e = def "0x2" /\ Tx.v e = def (JS.Num 27))
  /\ (exists e : Tx.t,
        txFromEthersTx
          (with_signature (polled_tx "0x") undefined (def "0x2")
             (def (JS.Num 27))) ETH mainnet = Ok e
        /\ Tx.signed e = false /\ Tx.r e = undefined).
Proof.
  split.
  - eexists. split; [ vm_compute; reflexivity |].
    pose proof (C3_signed_iff_signature (polled_tx "0x") ETH mainnet _
                  eq_refl) as (Hs & Hv & _).
    split; [ exact Hs |]. exact (Hv eq_refl).
  - eexists. split; [ vm_compute; reflexivity |].
    pose proof (C3_signed_iff_signature
                  (with_signature (polled_tx "0x") undefined (def "0x2")
                     (def (JS.Num 27))) ETH mainnet _ eq_refl)
      as (Hs & _ & Hu & _).
    split; [ exact Hs |]. exact (proj1 (Hu eq_refl)).
Defined.

(** C4, counterexample.  A signed dynamic-fee transaction whose parity [v]
    is 0.  Re-parsing the provider transaction as it is fails: it has no
    hash.  Once a hash and the type are supplied the re-parse succeeds, and
    returns the unsigned variant: [v = 0] is falsy, so [r], [s] and [v] are
    not preserved. *)
Lemma C4_zero_parity_counterexample :
  Tx.signed (signed_tx 0) = true
  /\ txFromEthersTx (ethersTxFromSignedTx (signed_tx 0)) ETH mainnet
     = Throw (Error "Malformed transaction")
  /\ exists e : Tx.t,
       txFromEthersTx
         (with_hash_type (ethersTxFromSignedTx (signed_tx 0))
            (def some_hash) (def (JS.Num 2))) ETH mainnet = Ok e
       /\ Tx.r e <> Tx.r (signed_tx 0)
       /\ Tx.s e <> Tx.s (signed_tx 0)
       /\ Tx.v e <> Tx.v (signed_tx 0).
Proof.
  split; [ reflexivity |]. split; [ reflexivity |].
  eexists. split; [ vm_compute; reflexivity |].
  repeat split; discriminate.
Qed.

(** C4, amended.  The provider transaction made from a signed transaction
    carries neither hash nor type, so re-parsing it as it is always fails
    with MalformedInput.  Once a hash and a type in {0, 1, 2} are supplied,
    and provided the asset is the native one, [r] and [s] are non-empty,
    [v] is neither zero nor NaN and the nonce is a natural number up to
    2^53 - 1, the re-parse succeeds and keeps nonce, to, from, value,
    gasLimit, r, s and v unchanged. *)
Theorem C4_round_trip (stx : Tx.t) (hash : string) (type : js JS.number)
    (n : Z) :
  (exists x : exn,
     txFromEthersTx (ethersTxFromSignedTx stx) (Tx.asset stx) (Tx.network stx)
     = Throw x
     /\ MalformedInput x = true)
  /\ (known_type type ->
      native (Tx.asset stx) = true ->
      JS.truthy JS.truthy_string (Tx.r stx) = true ->
      JS.truthy JS.truthy_string (Tx.s stx) = true ->
      JS.truthy JS.truthy_number (Tx.v stx) = true ->
      Tx.nonce stx = JS.Num n -> 0 <= n <= JS.MAX_SAFE_INTEGER ->
      exists e : Tx.t,
        txFromEthersTx
          (with_hash_type (ethersTxFromSignedTx stx) (def hash) type)
          (Tx.asset stx) (Tx.network stx) = Ok e
        /\ Tx.nonce e = Tx.nonce stx
        /\ Tx.to e = Tx.to stx
        /\ Tx.from e = Tx.from stx
        /\ Tx.value e = Tx.value stx
        /\ Tx.gasLimit e = Tx.gasLimit stx
        /\ Tx.r e = Tx.r stx
        /\ Tx.s e = Tx.s stx
        /\ Tx.v e = Tx.v stx).
Proof.
  split.
  - eexists. split; reflexivity.
  - intros Hk Hn Hr Hs Hv Hnonce Hsafe.
    apply unknown_type_spec in Hk. unfold native in Hn.
    unfold txFromEthersTx, with_hash_type, ethersTxFromSignedTx.
    cbn [EthersTx.hash EthersTx.to EthersTx.from EthersTx.nonce
         EthersTx.gasLimit EthersTx.gasPrice EthersTx.data EthersTx.value
         EthersTx.chainId EthersTx.r EthersTx.s EthersTx.v EthersTx.type
         EthersTx.maxPriorityFeePerGas EthersTx.maxFeePerGas
         EthersTx.blockHash EthersTx.blockNumber].
    rewrite Hk, Hn, Hr, Hs, Hv. cbn [negb bind andb].
    eexists. split; [ reflexivity |].
    cbn [Tx.nonce Tx.to Tx.from Tx.value Tx.gasLimit Tx.r Tx.s Tx.v].
    rewrite Hnonce, (parseInt_toString_safe n Hsafe).
    repeat split.
Qed.

(** C4, witness: the sample transaction with parity 1, hash and type 2. *)
Lemma C4_round_trip_witness :
  exists e : Tx.t,
    txFromEthersTx
      (with_hash_type (ethersTxFromSignedTx (signed_tx 1))
         (def some_hash) (def (JS.Num 2))) ETH mainnet = Ok e
    /\ Tx.nonce e = JS.Num 7
    /\ Tx.to e = def bob
    /\ Tx.from e = def alice
    /\ Tx.value e = 1000000000000000000
    /\ Tx.gasLimit e = 21000
    /\ Tx.r e = def "0x1"
    /\ Tx.s e = def "0x2"
    /\ Tx.v e = def (JS.Num 1).
Proof.
  apply (proj2 (C4_round_trip (signed_tx 1) some_hash (def (JS.Num 2)) 7)).
  - right. right. reflexivity.
  - reflexivity.
  - reflexivity.
  - reflexivity.
  - reflexivity.
  - reflexivity.
  - unfold JS.MAX_SAFE_INTEGER. lia.
Defined.

(** *** The pushed transaction, step by step *)

Lemma bind_Ok {A B : Type} (m : result A) (k : A -> result B) (b : B) :
  bind m k = Ok b -> exists a : A, m = Ok a /\ k a = Ok b.
Proof. destruct m as [a | x]; simpl; [ eauto | discriminate ]. Qed.

Lemma BigInt_or_null_Ok (x : js string) (m : js Z) :
  BigInt_or_null x = Ok m ->
  (JS.truthy JS.truthy_string x = true /\ exists b : Z, m = def b)
  \/ (JS.truthy JS.truthy_string x = false /\ m = null).
Proof.
  unfold BigInt_or_null.
  destruct (JS.truthy JS.truthy_string x); intros H.
  - left. split; [ reflexivity |].
    apply bind_Ok in H as (b & _ & Hb). inversion Hb. now exists b.
  - right. inversion H. split; reflexivity.
Qed.

Lemma txFromWebsocketTx_Ok (tx : WsTx.t) (asset : FungibleAsset)
    (network : EVMNetwork) (e : Tx.t) :
  txFromWebsocketTx tx asset network = Ok e ->
  exists (gasLimit gasPrice : Z) (maxFeePerGas maxPriorityFeePerGas : js Z)
         (v : JS.number) (value : Z) (type : js JS.number),
    JS.BigInt (WsTx.gas tx) = Ok gasLimit
    /\ JS.BigInt (WsTx.gasPrice tx) = Ok gasPrice
    /\ BigInt_or_null (WsTx.maxFeePerGas tx) = Ok maxFeePerGas
    /\ BigInt_or_null (WsTx.maxPriorityFeePerGas tx) = Ok maxPriorityFeePerGas
    /\ (n <- BigNumber.from (WsTx.v tx) ;; BigNumber.toNumber n) = Ok v
    /\ JS.BigInt (WsTx.value tx) = Ok value
    /\ match WsTx.type tx with
       | undefined => Ok (def (JS.Num 0))
       | ty => n <- BigNumber.from ty ;; t <- BigNumber.toNumber n ;; Ok (def t)
       end = Ok type
    /\ e = {| Tx.hash := WsTx.hash tx;
              Tx.to := WsTx.to tx;
              Tx.from := WsTx.from tx;
              Tx.gasLimit := gasLimit;
              Tx.gasPrice := def gasPrice;
              Tx.maxFeePerGas := maxFeePerGas;
              Tx.maxPriorityFeePerGas := maxPriorityFeePerGas;
              Tx.input := WsTx.input tx;
              Tx.r := JS.or_else JS.truthy_string (WsTx.r tx) undefined;
              Tx.s := JS.or_else JS.truthy_string (WsTx.s tx) undefined;
              Tx.v := def v;
              Tx.nonce := JS.Number (WsTx.nonce tx);
              Tx.value := value;
              Tx.blockHash := nullish (WsTx.blockHash tx) null;
              Tx.blockHeight := nullish (WsTx.blockNumber tx) null;
              Tx.type := type;
              Tx.asset := asset;
              Tx.network := network |}.
Proof.
  unfold txFromWebsocketTx. intros H.
  apply bind_Ok in H as (gasLimit & H1 & H).
  apply bind_Ok in H as (gasPrice & H2 & H).
  apply bind_Ok in H as (mf & H3 & H).
  apply bind_Ok in H as (mp & H4 & H).
  apply bind_Ok in H as (v & H5 & H).
  apply bind_Ok in H as (value & H6 & H).
  apply bind_Ok in H as (type & H7 & H).
  inversion H.
  exists gasLimit, gasPrice, mf, mp, v, value, type.
  repeat split; assumption.
Qed.

Lemma toBigInt_or_null_is_def (b : js Z) :
  is_def (toBigInt_or_null b) = is_def b.
Proof. destruct b; reflexivity. Qed.

Lemma toBigInt_or_null_null (b : js Z) :
  toBigInt_or_null b = null <-> is_def b = false.
Proof. destruct b; simpl; split; congruence. Qed.

(** C5, counterexample.  A pushed payload of type 2 without the fee-per-gas
    fields is converted to a transaction of type 2 whose [maxFeePerGas] and
    [maxPriorityFeePerGas] are null. *)
Lemma C5_fee_invariant_counterexample :
  exists e : Tx.t,
    txFromWebsocketTx
      (pushed_tx (def "0x1") undefined undefined (def "0x1") (def "0x2"))
      ETH mainnet = Ok e
    /\ Tx.type e = def (JS.Num 2)
    /\ Tx.maxFeePerGas e = null
    /\ Tx.maxPriorityFeePerGas e = null
    /\ ~ tx_fee_invariant e.
Proof.
  eexists. split; [ vm_compute; reflexivity |].
  repeat split.
  intros [_ H2]. destruct (H2 (or_intror eq_refl)) as [H _].
  discriminate H.
Qed.

(** C5, amended.  The normalizers copy the fee fields of the payload
    whatever its type, so a transaction they produce satisfies the type/fee
    invariant exactly when its payload does: for a polled payload, [gasPrice]
    present and the two fee-per-gas fields absent under type 0, the two
    fee-per-gas fields present under types 1 and 2; for a pushed payload
    (whose [gasPrice] is always there when it is converted), the same reading
    of its fee-per-gas fields under the type it decodes to. *)
Theorem C5_fee_invariant_follows_payload :
  (forall (tx : EthersTx.t) (asset : FungibleAsset) (network : EVMNetwork)
          (e : Tx.t),
      txFromEthersTx tx asset network = Ok e ->
      (tx_fee_invariant e <-> polled_fee_invariant tx))
  /\ (forall (tx : WsTx.t) (asset : FungibleAsset) (network : EVMNetwork)
             (e : Tx.t),
        txFromWebsocketTx tx asset network = Ok e ->
        (tx_fee_invariant e <-> pushed_fee_invariant tx (Tx.type e))).
Proof.
  split.
  - intros tx asset network e H.
    assert (Ht : Tx.type e = EthersTx.type tx
                 /\ Tx.gasPrice e = toBigInt_or_null (EthersTx.gasPrice tx)
                 /\ Tx.maxFeePerGas e
                    = toBigInt_or_null (EthersTx.maxFeePerGas tx)
                 /\ Tx.maxPriorityFeePerGas e
                    = toBigInt_or_null (EthersTx.maxPriorityFeePerGas tx))
      by (polled_cases H; repeat split).
    destruct Ht as (Ety & Egp & Emf & Emp).
    unfold tx_fee_invariant, polled_fee_invariant.
    rewrite Ety, Egp, Emf, Emp, !toBigInt_or_null_is_def,
      !toBigInt_or_null_null.
    reflexivity.
  - intros tx asset network e H.
    apply txFromWebsocketTx_Ok in H
      as (gl & gp & mf & mp & v & value & ty
          & _ & _ & Hmf & Hmp & _ & _ & _ & ->).
    unfold tx_fee_invariant, pushed_fee_invariant.
    cbn [Tx.type Tx.gasPrice Tx.maxFeePerGas Tx.maxPriorityFeePerGas is_def].
    apply BigInt_or_null_Ok in Hmf as [[Hf (bf & ->)] | [Hf ->]];
      apply BigInt_or_null_Ok in Hmp as [[Hp (bp & ->)] | [Hp ->]];
      rewrite Hf, Hp; cbn [is_def];
      split; intros [H0 H12]; split; intros Hty;
      try (specialize (H0 Hty)); try (specialize (H12 Hty));
      intuition congruence.
Qed.

(** C5, witness: a polled dynamic-fee payload and a pushed legacy payload. *)
Lemma C5_fee_invariant_follows_payload_witness :
  (exists e : Tx.t,
     txFromEthersTx (polled_tx "0x") ETH mainnet = Ok e /\ tx_fee_invariant e)
  /\ (exists e : Tx.t,
        txFromWebsocketTx
          (pushed_tx (def "0x1") undefined undefined (def "0x1b") undefined)
          ETH mainnet = Ok e
        /\ tx_fee_invariant e).
Proof.
  split.
  - eexists. split; [ vm_compute; reflexivity |].
    apply (proj1 C5_fee_invariant_follows_payload (polled_tx "0x") ETH mainnet
             _ eq_refl).
    split.
    + intros H. discriminate H.
    + intros _. split; reflexivity.
  - eexists. split; [ vm_compute; reflexivity |].
    apply (proj2 C5_fee_invariant_follows_payload
             (pushed_tx (def "0x1") undefined undefined (def "0x1b") undefined)
             ETH mainnet _ eq_refl).
    split.
    + intros _. split; reflexivity.
    + intros [H | H]; discriminate H.
Defined.

(** *** The pushed block *)

Lemma hex_quantity_nonneg (x : js string) (z : Z) :
  hex_quantity x = Some z -> 0 <= z.
Proof.
  intros H. apply hex_quantity_shape in H as (digits & _ & Hd).
  apply (whole_int_nonneg 16 digits z); [ lia | assumption ].
Qed.

Lemma hex_quantity_truthy (x : js string) (z : Z) :
  hex_quantity x = Some z -> JS.truthy JS.truthy_string x = true.
Proof.
  intros H. apply hex_quantity_shape in H as (digits & -> & _). reflexivity.
Qed.

(** C6, counterexample.  A pushed block without [hash] and [parentHash] is
    converted all the same; the block returned has the two fields
    [undefined]. *)
Lemma C6_absent_hash_counterexample :
  (exists b : Block.t,
     blockFromWebsocketBlock mainnet
       (pushed_block undefined undefined "0x10" "0x61a8") = Ok b
     /\ Block.hash b = undefined /\ Block.parentHash b = undefined)
  /\ ~ (exists x : exn,
          blockFromWebsocketBlock mainnet
            (pushed_block undefined undefined "0x10" "0x61a8") = Throw x
          /\ MalformedInput x = true).
Proof.
  split.
  - eexists. split; [ vm_compute; reflexivity |]. split; reflexivity.
  - intros (x & Hx & _). vm_compute in Hx. discriminate Hx.
Qed.

(** C6, amended.  fromSubscriptionBlock does not look at [hash] and
    [parentHash]: a block it returns carries the two fields as they came in
    the payload, absent ones included, and whether it returns or fails is
    the same for any other [hash] and [parentHash]. *)
Theorem C6_hashes_are_copied_unchecked (ETHEREUM : EVMNetwork)
    (gethResult : WsBlock.t) :
  (forall b : Block.t,
      blockFromWebsocketBlock ETHEREUM gethResult = Ok b ->
      Block.hash b = WsBlock.hash gethResult
      /\ Block.parentHash b = WsBlock.parentHash gethResult)
  /\ (forall hash parentHash : js string,
        returns (blockFromWebsocketBlock ETHEREUM
                   (with_hashes gethResult hash parentHash))
        = returns (blockFromWebsocketBlock ETHEREUM gethResult)).
Proof.
  split.
  - intros b H. unfold blockFromWebsocketBlock in H.
    apply bind_Ok in H as (height & _ & H).
    apply bind_Ok in H as (difficulty & _ & H).
    apply bind_Ok in H as (timestamp & _ & H).
    apply bind_Ok in H as (baseFee & _ & H).
    inversion H. split; reflexivity.
  - intros hash parentHash.
    unfold blockFromWebsocketBlock, with_hashes. block_projections.
    destruct (n <- BigNumber.from (WsBlock.number gethResult) ;;
              BigNumber.toNumber n); [| reflexivity ].
    destruct (JS.BigInt (WsBlock.difficulty gethResult)); [| reflexivity ].
    destruct (n <- BigNumber.from (WsBlock.timestamp gethResult) ;;
              BigNumber.toNumber n); [| reflexivity ].
    cbn [bind].
    destruct (if JS.truthy JS.truthy_string (WsBlock.baseFeePerGas gethResult)
              then b <- JS.BigInt (WsBlock.baseFeePerGas gethResult) ;;
                   Ok (def b)
              else Ok undefined); reflexivity.
Qed.

(** C6, witness: a well-formed block, with its hashes and without them. *)
Lemma C6_hashes_are_copied_unchecked_witness :
  (exists b : Block.t,
     blockFromWebsocketBlock mainnet
       (pushed_block (def some_hash) undefined "0x10" "0x61a8") = Ok b
     /\ Block.hash b = def some_hash /\ Block.parentHash b = undefined)
  /\ returns (blockFromWebsocketBlock mainnet
                (with_hashes (pushed_block (def some_hash) undefined
                                "0x10" "0x61a8") undefined undefined))
     = true.
Proof.
  split.
  - eexists. split; [ vm_compute; reflexivity |].
    apply (proj1 (C6_hashes_are_copied_unchecked mainnet
                    (pushed_block (def some_hash) undefined "0x10" "0x61a8"))
             _ eq_refl).
  - rewrite (proj2 (C6_hashes_are_copied_unchecked mainnet
                      (pushed_block (def some_hash) undefined "0x10" "0x61a8"))).
    reflexivity.
Defined.

(** C7.  On a pushed block whose numeric fields are hexadecimal quantities:
    a [number] above 2^53 - 1 makes the conversion fail with the library's
    numeric overflow fault; so does a [timestamp] above 2^53 - 1; and when
    both are within the safe range the block is returned with exactly the
    decoded height and timestamp. *)
Theorem C7_height_and_timestamp_in_safe_range (ETHEREUM : EVMNetwork)
    (gethResult : WsBlock.t) :
  (forall n : Z,
      hex_quantity (WsBlock.number gethResult) = Some n ->
      JS.MAX_SAFE_INTEGER < n ->
      exists x : exn,
        blockFromWebsocketBlock ETHEREUM gethResult = Throw x
        /\ NumericOverflow x = true)
  /\ (forall n d t : Z,
        hex_quantity (WsBlock.number gethResult) = Some n ->
        n <= JS.MAX_SAFE_INTEGER ->
        hex_quantity (WsBlock.difficulty gethResult) = Some d ->
        hex_quantity (WsBlock.timestamp gethResult) = Some t ->
        JS.MAX_SAFE_INTEGER < t ->
        exists x : exn,
          blockFromWebsocketBlock ETHEREUM gethResult = Throw x
          /\ NumericOverflow x = true)
  /\ (forall n d t : Z,
        hex_quantity (WsBlock.number gethResult) = Some n ->
        n <= JS.MAX_SAFE_INTEGER ->
        hex_quantity (WsBlock.difficulty gethResult) = Some d ->
        hex_quantity (WsBlock.timestamp gethResult) = Some t ->
        t <= JS.MAX_SAFE_INTEGER ->
        JS.truthy JS.truthy_string (WsBlock.baseFeePerGas gethResult) = false
        \/ hex_quantity (WsBlock.baseFeePerGas gethResult) <> None ->
        exists b : Block.t,
          blockFromWebsocketBlock ETHEREUM gethResult = Ok b
          /\ Block.blockHeight b = JS.Num n
          /\ Block.timestamp b = JS.Num t
          /\ Block.difficulty b = d).
Proof.
  repeat split.
  - intros n Hn Hbig. unfold blockFromWebsocketBlock.
    rewrite (BigNumber_from_hex_quantity _ _ Hn). cbn [bind].
    rewrite (toNumber_overflow n Hbig).
    eexists. split; reflexivity.
  - intros n d t Hn Hsafe Hd Ht Hbig. unfold blockFromWebsocketBlock.
    pose proof (hex_quantity_nonneg _ _ Hn) as Hn0.
    rewrite (BigNumber_from_hex_quantity _ _ Hn). cbn [bind].
    rewrite (toNumber_safe n (conj Hn0 Hsafe)).
    rewrite (BigInt_hex_quantity _ _ Hd).
    rewrite (BigNumber_from_hex_quantity _ _ Ht). cbn [bind].
    rewrite (toNumber_overflow t Hbig).
    eexists. split; reflexivity.
  - intros n d t Hn Hsafe Hd Ht Htsafe Hfee. unfold blockFromWebsocketBlock.
    pose proof (hex_quantity_nonneg _ _ Hn) as Hn0.
    pose proof (hex_quantity_nonneg _ _ Ht) as Ht0.
    rewrite (BigNumber_from_hex_quantity _ _ Hn). cbn [bind].
    rewrite (toNumber_safe n (conj Hn0 Hsafe)).
    rewrite (BigInt_hex_quantity _ _ Hd).
    rewrite (BigNumber_from_hex_quantity _ _ Ht). cbn [bind].
    rewrite (toNumber_safe t (conj Ht0 Htsafe)).
    destruct Hfee as [Hfee | Hfee].
    + rewrite Hfee. cbn [bind]. eexists. repeat split.
    + destruct (hex_quantity (WsBlock.baseFeePerGas gethResult)) as [f|] eqn:Ef;
        [| congruence ].
      rewrite (hex_quantity_truthy _ _ Ef), (BigInt_hex_quantity _ _ Ef).
      cbn [bind]. eexists. repeat split.
Qed.

(** C7, witness: height 2^53 fails, timestamp 2^53 fails, and height and
    timestamp 2^53 - 1 are returned as they are. *)
Lemma C7_height_and_timestamp_in_safe_range_witness :
  (exists x : exn,
     blockFromWebsocketBlock mainnet
       (pushed_block (def some_hash) (def some_hash)
          "0x20000000000000" "0x61a8") = Throw x
     /\ NumericOverflow x = true)
  /\ (exists x : exn,
        blockFromWebsocketBlock mainnet
          (pushed_block (def some_hash) (def some_hash)
             "0x10" "0x20000000000000") = Throw x
        /\ NumericOverflow x = true)
  /\ (exists b : Block.t,
        blockFromWebsocketBlock mainnet
          (pushed_block (def some_hash) (def some_hash)
             "0x1fffffffffffff" "0x1fffffffffffff") = Ok b
        /\ Block.blockHeight b = JS.Num 9007199254740991
        /\ Block.timestamp b = JS.Num 9007199254740991
        /\ Block.difficulty b = 10000000000).
Proof.
  split; [| split ].
  - apply (proj1 (C7_height_and_timestamp_in_safe_range mainnet _)
             9007199254740992); reflexivity.
  - apply (proj1 (proj2 (C7_height_and_timestamp_in_safe_range mainnet _))
             16 10000000000 9007199254740992);
      try reflexivity. discriminate.
  - apply (proj2 (proj2 (C7_height_and_timestamp_in_safe_range mainnet _))
             9007199254740991 10000000000 9007199254740991);
      try reflexivity; try discriminate.
    right. discriminate.
Defined.

Lemma returns_Ok {A : Type} (m : result A) :
  returns m = true -> exists a : A, m = Ok a.
Proof. destruct m as [a | x]; simpl; [ eauto | discriminate ]. Qed.

Lemma BigInt_or_null_absent (x : js string) :
  is_def x = false -> BigInt_or_null x = Ok null.
Proof. destruct x; simpl; [ reflexivity | reflexivity | discriminate ]. Qed.

(** C8, counterexample.  A pushed payload without [gasPrice] is not
    converted to a transaction whose [gasPrice] is null: the conversion
    throws a TypeError. *)
Lemma C8_absent_gasPrice_counterexample :
  is_def (WsTx.gasPrice
            (pushed_tx undefined (def "0x2") (def "0x1") (def "0x1")
               (def "0x2"))) = false
  /\ txFromWebsocketTx
       (pushed_tx undefined (def "0x2") (def "0x1") (def "0x1") (def "0x2"))
       ETH mainnet = Throw TypeError.
Proof. split; reflexivity. Qed.

(** C8, amended.  fromSubscriptionTx maps an absent [maxFeePerGas],
    [maxPriorityFeePerGas], [blockHash] or [blockNumber] to null in the
    transaction it returns, and a payload that is converted is still
    converted when its two fee-per-gas fields are taken away.  [gasPrice]
    is not optional: without it the conversion fails. *)
Theorem C8_absent_fee_fields_are_null (tx : WsTx.t) (asset : FungibleAsset)
    (network : EVMNetwork) :
  (forall e : Tx.t,
      txFromWebsocketTx tx asset network = Ok e ->
      (is_def (WsTx.maxFeePerGas tx) = false -> Tx.maxFeePerGas e = null)
      /\ (is_def (WsTx.maxPriorityFeePerGas tx) = false ->
            Tx.maxPriorityFeePerGas e = null)
      /\ (is_def (WsTx.blockHash tx) = false -> Tx.blockHash e = null)
      /\ (is_def (WsTx.blockNumber tx) = false -> Tx.blockHeight e = null))
  /\ (forall maxFeePerGas maxPriorityFeePerGas : js string,
        is_def maxFeePerGas = false -> is_def maxPriorityFeePerGas = false ->
        returns (txFromWebsocketTx tx asset network) = true ->
        returns (txFromWebsocketTx
                   (with_fees tx maxFeePerGas maxPriorityFeePerGas)
                   asset network) = true)
  /\ (is_def (WsTx.gasPrice tx) = false ->
        returns (txFromWebsocketTx tx asset network) = false).
Proof.
  repeat split.
  - intros Habs.
    apply txFromWebsocketTx_Ok in H
      as (gl & gp & mf & mp & v & value & ty
          & _ & _ & Hmf & _ & _ & _ & _ & ->).
    rewrite (BigInt_or_null_absent _ Habs) in Hmf. now inversion Hmf.
  - intros Habs.
    apply txFromWebsocketTx_Ok in H
      as (gl & gp & mf & mp & v & value & ty
          & _ & _ & _ & Hmp & _ & _ & _ & ->).
    rewrite (BigInt_or_null_absent _ Habs) in Hmp. now inversion Hmp.
  - intros Habs.
    apply txFromWebsocketTx_Ok in H
      as (gl & gp & mf & mp & v & value & ty & _ & _ & _ & _ & _ & _ & _ & ->).
    cbn [Tx.blockHash]. destruct (WsTx.blockHash tx); try reflexivity.
    discriminate Habs.
  - intros Habs.
    apply txFromWebsocketTx_Ok in H
      as (gl & gp & mf & mp & v & value & ty & _ & _ & _ & _ & _ & _ & _ & ->).
    cbn [Tx.blockHeight]. destruct (WsTx.blockNumber tx); try reflexivity.
    discriminate Habs.
  - intros mf' mp' Hmf' Hmp' Hret.
    apply returns_Ok in Hret as (e & He).
    apply txFromWebsocketTx_Ok in He
      as (gl & gp & mf & mp & v & value & ty
          & Hgl & Hgp & _ & _ & Hv & Hvalue & Hty & _).
    unfold txFromWebsocketTx, with_fees. pushed_projections.
    rewrite Hgl, Hgp, (BigInt_or_null_absent _ Hmf'),
      (BigInt_or_null_absent _ Hmp'), Hv, Hvalue, Hty.
    reflexivity.
  - intros Habs. unfold txFromWebsocketTx.
    destruct (JS.BigInt (WsTx.gas tx)); [| reflexivity ].
    destruct (WsTx.gasPrice tx); [ reflexivity | reflexivity |].
    discriminate Habs.
Qed.

(** C8, witness: a pushed legacy payload without the fee-per-gas fields. *)
Lemma C8_absent_fee_fields_are_null_witness :
  exists e : Tx.t,
    txFromWebsocketTx
      (pushed_tx (def "0x1") undefined null (def "0x1b") undefined)
      ETH mainnet = Ok e
    /\ Tx.maxFeePerGas e = null /\ Tx.maxPriorityFeePerGas e = null.
Proof.
  eexists. split; [ vm_compute; reflexivity |].
  pose proof (proj1 (C8_absent_fee_fields_are_null
                       (pushed_tx (def "0x1") undefined null (def "0x1b")
                          undefined) ETH mainnet) _ eq_refl)
    as (Hmf & Hmp & _).
  split; [ exact (Hmf eq_refl) | exact (Hmp eq_refl) ].
Defined.

(** C10.  A pushed payload whose [v] is [undefined] or [null] is never
    converted: fromSubscriptionTx throws.  [r] and [s] are not required:
    when they are absent the transaction returned has them [undefined], and
    whether the conversion returns or fails does not depend on them. *)
Theorem C10_v_is_required (tx : WsTx.t) (asset : FungibleAsset)
    (network : EVMNetwork) :
  (is_def (WsTx.v tx) = false ->
     exists x : exn, txFromWebsocketTx tx asset network = Throw x)
  /\ (forall e : Tx.t,
        txFromWebsocketTx tx asset network = Ok e ->
        (is_def (WsTx.r tx) = false -> Tx.r e = undefined)
        /\ (is_def (WsTx.s tx) = false -> Tx.s e = undefined))
  /\ (forall r s : js string,
        returns (txFromWebsocketTx (with_r_s tx r s) asset network)
        = returns (txFromWebsocketTx tx asset network)).
Proof.
  repeat split.
  - intros Habs. unfold txFromWebsocketTx.
    destruct (JS.BigInt (WsTx.gas tx)); [| eexists; reflexivity ].
    destruct (JS.BigInt (WsTx.gasPrice tx)); [| eexists; reflexivity ].
    destruct (BigInt_or_null (WsTx.maxFeePerGas tx));
      [| eexists; reflexivity ].
    destruct (BigInt_or_null (WsTx.maxPriorityFeePerGas tx));
      [| eexists; reflexivity ].
    destruct (WsTx.v tx); [ | | discriminate Habs ]; eexists; reflexivity.
  - intros Habs.
    apply txFromWebsocketTx_Ok in H
      as (gl & gp & mf & mp & v & value & ty & _ & _ & _ & _ & _ & _ & _ & ->).
    cbn [Tx.r]. destruct (WsTx.r tx); try reflexivity. discriminate Habs.
  - intros Habs.
    apply txFromWebsocketTx_Ok in H
      as (gl & gp & mf & mp & v & value & ty & _ & _ & _ & _ & _ & _ & _ & ->).
    cbn [Tx.s]. destruct (WsTx.s tx); try reflexivity. discriminate Habs.
  - intros r s. unfold txFromWebsocketTx, with_r_s. pushed_projections.
    destruct (JS.BigInt (WsTx.gas tx)); [| reflexivity ].
    destruct (JS.BigInt (WsTx.gasPrice tx)); [| reflexivity ].
    destruct (BigInt_or_null (WsTx.maxFeePerGas tx)); [| reflexivity ].
    destruct (BigInt_or_null (WsTx.maxPriorityFeePerGas tx)); [| reflexivity ].
    destruct (n <- BigNumber.from (WsTx.v tx) ;; BigNumber.toNumber n);
      [| reflexivity ].
    destruct (JS.BigInt (WsTx.value tx)); [| reflexivity ].
    cbn [bind].
    match goal with
    | |- context [ bind ?m _ ] => destruct m
    end; reflexivity.
Qed.

(** C10, witness: without [v] the sample payload is refused; with [v] and
    without [r] and [s] it is converted. *)
Lemma C10_v_is_required_witness :
  (exists x : exn,
     txFromWebsocketTx
       (pushed_tx (def "0x1") undefined undefined null undefined)
       ETH mainnet = Throw x)
  /\ (exists e : Tx.t,
        txFromWebsocketTx
          (pushed_tx (def "0x1") undefined undefined (def "0x1b") undefined)
          ETH mainnet = Ok e
        /\ Tx.r e = undefined /\ Tx.s e = undefined).
Proof.
  split.
  - apply (proj1 (C10_v_is_required
                    (pushed_tx (def "0x1") undefined undefined null undefined)
                    ETH mainnet)).
    reflexivity.
  - eexists. split; [ vm_compute; reflexivity |].
    pose proof (proj1 (proj2 (C10_v_is_required
                                (pushed_tx (def "0x1") undefined undefined
                                   (def "0x1b") undefined) ETH mainnet))
                  _ eq_refl) as (Hr & Hs).
    split; [ exact (Hr eq_refl) | exact (Hs eq_refl) ].
Defined.

(** *** Decimal strings under [Number] *)

(** A decimal digit is not the letter of a radix prefix. *)
Lemma decimal_digit_plain (c : ascii) (d : Z) :
  JS.digit 10 c = Some d ->
  JS.is_char c "x" "X" = false /\ JS.is_char c "o" "O" = false
  /\ JS.is_char c "b" "B" = false.
Proof.
  intros H. pose proof (digit_bound _ _ _ H) as Hb.
  unfold JS.digit in H.
  destruct (JS.digit_value c) as [k|] eqn:Ek; [| discriminate ].
  destruct (k <? 10) eqn:Ekr; [| discriminate ].
  inversion H; subst k. clear H Ekr.
  destruct c as [[] [] [] [] [] [] [] []];
    vm_compute in Ek; try discriminate;
    try (repeat split; reflexivity);
    inversion Ek; subst d; exfalso; lia.
Qed.

Lemma StringToNumber_decimal (s : string) (c : Z) :
  decimal_string s = Some c -> JS.StringToNumber s = JS.number_of_Z c.
Proof.
  unfold decimal_string. intros H.
  pose proof (whole_int_all_digits _ _ _ H) as (Hne & Hall & _).
  unfold JS.StringToNumber.
  rewrite trim_no_space by (apply (all_digits_no_space 10); [ lia | assumption ]).
  destruct s as [| c0 t]; [ congruence |].
  assert (Hshape :
            ((String c0 t =? "Infinity")%string
             || (String c0 t =? "+Infinity")%string) = false
            /\ (String c0 t =? "-Infinity")%string = false
            /\ JS.prefixed_int (String c0 t) = None
            /\ JS.signed_int (String c0 t) = JS.whole_int 10 (String c0 t)).
  { simpl in Hall.
    destruct (JS.digit 10 c0) as [d0|] eqn:E0; [| discriminate ].
    assert (Hpre : JS.is_char c0 "0" "0" = true ->
                   JS.prefixed_int (String c0 t) = None).
    { intros Hz. unfold JS.prefixed_int.
      destruct t as [| c1 t']; [ reflexivity |].
      rewrite Hz. simpl in Hall.
      destruct (JS.digit 10 c1) as [d1|] eqn:E1; [| discriminate ].
      destruct (decimal_digit_plain c1 d1 E1) as (Hx & Ho & Hb).
      now rewrite Hx, Ho, Hb. }
    unfold JS.digit in E0.
    destruct (JS.digit_value c0) as [k|] eqn:Ek; [| discriminate ].
    destruct (Z.ltb_spec k 10) as [Hk | Hk]; [| discriminate ].
    destruct c0 as [[] [] [] [] [] [] [] []];
      vm_compute in Ek; try discriminate;
      try (inversion Ek; subst k; exfalso; lia);
      (repeat split; try reflexivity;
       try (apply Hpre; reflexivity);
       destruct t; reflexivity). }
  destruct Hshape as (Hi & Hm & Hp & Hs).
  rewrite Hi, Hm, Hp, Hs, H. reflexivity.
Qed.


(** C9.  toProviderNetwork names the network [homestead] when its canonical
    name is [Ethereum] and by its lower-cased canonical name otherwise; its
    [chainId] is the number that the decimal chain-ID string denotes (the
    Number value of that integer, which is the integer itself up to
    2^53 - 1). *)
Theorem C9_provider_network (network : EVMNetwork) :
  (name network = "Ethereum" ->
     EthersNetwork.name (networkToEthersNetwork network) = "homestead")
  /\ (name network <> "Ethereum" ->
        EthersNetwork.name (networkToEthersNetwork network)
        = JS.toLowerCase (name network))
  /\ (forall c : Z,
        decimal_string (chainID network) = Some c ->
        EthersNetwork.chainId (networkToEthersNetwork network)
        = JS.number_of_Z c
        /\ (c <= JS.MAX_SAFE_INTEGER ->
              EthersNetwork.chainId (networkToEthersNetwork network)
              = JS.Num c)).
Proof.
  unfold networkToEthersNetwork. cbn [EthersNetwork.name EthersNetwork.chainId].
  repeat split.
  - intros ->. reflexivity.
  - intros Hne.
    destruct (String.eqb_spec (name network) "Ethereum"); [ contradiction |].
    reflexivity.
  - apply StringToNumber_decimal. assumption.
  - intros Hsafe. cbn [JS.Number].
    rewrite (StringToNumber_decimal _ _ H).
    apply number_of_Z_safe.
    pose proof (whole_int_nonneg 10 _ _ ltac:(lia) H). lia.
Qed.

(** C9, witness: mainnet and Goerli. *)
Lemma C9_provider_network_witness :
  networkToEthersNetwork mainnet
  = {| EthersNetwork.name := "homestead"; EthersNetwork.chainId := JS.Num 1 |}
  /\ networkToEthersNetwork goerli
     = {| EthersNetwork.name := "goerli"; EthersNetwork.chainId := JS.Num 5 |}.
Proof.
  pose proof (C9_provider_network mainnet) as (Hm & _ & Hcm).
  pose proof (C9_provider_network goerli) as (_ & Hg & Hcg).
  specialize (Hm eq_refl).
  specialize (Hg ltac:(discriminate)).
  destruct (Hcm 1 eq_refl) as [_ Hc1].
  destruct (Hcg 5 eq_refl) as [_ Hc5].
  specialize (Hc1 ltac:(discriminate)).
  specialize (Hc5 ltac:(discriminate)).
  split.
  - destruct (networkToEthersNetwork mainnet) as [nm ci].
    simpl in Hm, Hc1. now rewrite Hm, Hc1.
  - destruct (networkToEthersNetwork goerli) as [nm ci].
    simpl in Hg, Hc5. now rewrite Hg, Hc5.
Defined.

(** ** The examples of the specification *)

(** A native-asset transfer of 1000000000000000000 keeps its value. *)
Example native_transfer_value :
  exists e : Tx.t,
    txFromEthersTx (polled_tx "0x") ETH mainnet = Ok e
    /\ Tx.value e = 1000000000000000000.
Proof. eexists. split; [ vm_compute; reflexivity | reflexivity ]. Qed.

(** Call data ending in the 32 bytes of 100 gives the value 100. *)
Example token_transfer_value_100 :
  call_data_amount (transfer_data amount_100) = Some 100
  /\ exists e : Tx.t,
       txFromEthersTx (polled_tx (transfer_data amount_100)) DAI mainnet = Ok e
       /\ Tx.value e = 100.
Proof.
  split; [ reflexivity |].
  eexists. split; [ vm_compute; reflexivity | reflexivity ].
Qed.

(** Call data too short to hold an amount: the conversion throws. *)
Example token_transfer_without_amount :
  txFromEthersTx (polled_tx "0x") DAI mainnet = Throw RangeError.
Proof. reflexivity. Qed.

(** Type 3 is refused. *)
Example type_3_is_refused :
  txFromEthersTx polled_type_3 ETH mainnet
  = Throw (Error "Unknown transaction type 3").
Proof. reflexivity. Qed.

(** A polled block is given difficulty 0. *)
Example polled_block_difficulty :
  Block.difficulty
    (blockFromEthersBlock mainnet
       {| EthersBlock.hash := def some_hash;
          EthersBlock.number := JS.Num 16;
          EthersBlock.parentHash := def some_hash;
          EthersBlock.timestamp := JS.Num 25000;
          EthersBlock.baseFeePerGas := def 7 |}) = 0.
Proof. reflexivity. Qed.

(** ** Further properties of the converters *)

(** *** What the library calls can throw *)

Lemma bind_Throw {A B : Type} (m : result A) (k : A -> result B) (x : exn) :
  bind m k = Throw x ->
  m = Throw x \/ exists a : A, m = Ok a /\ k a = Throw x.
Proof.
  destruct m as [a | y]; simpl; intros H; [ eauto |].
  left. inversion H. reflexivity.
Qed.

Lemma BigNumber_from_Throw (v : js string) (x : exn) :
  BigNumber.from v = Throw x -> x = INVALID_ARGUMENT.
Proof.
  unfold BigNumber.from, BigNumber.from_string.
  destruct v as [| | s]; try (intros H; inversion H; reflexivity).
  destruct (match s with
            | String c t => if JS.is_char c "-" "-" then (true, t) else (false, s)
            | EmptyString => (false, s)
            end) as [neg body].
  match goal with
  | |- context [ match ?p with Some _ => _ | None => _ end ] => destruct p
  end; intros H; inversion H; reflexivity.
Qed.

Lemma toNumber_Throw (n : Z) (x : exn) :
  BigNumber.toNumber n = Throw x -> x = NUMERIC_FAULT_overflow.
Proof.
  unfold BigNumber.toNumber.
  destruct (Z.abs n <=? JS.MAX_SAFE_INTEGER); intros H; inversion H.
  reflexivity.
Qed.

Lemma toNumber_Ok (n : Z) (t : JS.number) :
  BigNumber.toNumber n = Ok t ->
  t = JS.Num n /\ Z.abs n <= JS.MAX_SAFE_INTEGER.
Proof.
  unfold BigNumber.toNumber.
  destruct (Z.leb_spec (Z.abs n) JS.MAX_SAFE_INTEGER) as [Hle | Hgt];
    intros Heq; inversion Heq.
  split; [ reflexivity | assumption ].
Qed.

Lemma BigInt_Throw (v : js string) (x : exn) :
  JS.BigInt v = Throw x -> x = TypeError \/ x = SyntaxError.
Proof.
  unfold JS.BigInt. destruct v as [| | s].
  - intros H; inversion H; auto.
  - intros H; inversion H; auto.
  - destruct (JS.StringToBigInt s); intros H; inversion H; auto.
Qed.

Lemma decode_number_Throw (v : js string) (x : exn) :
  (n <- BigNumber.from v ;; BigNumber.toNumber n) = Throw x ->
  library_failure x.
Proof.
  intros H. unfold library_failure.
  apply bind_Throw in H as [H | (n & _ & H)].
  - apply BigNumber_from_Throw in H. auto.
  - apply toNumber_Throw in H. auto.
Qed.

Lemma BigInt_library_failure (v : js string) (x : exn) :
  JS.BigInt v = Throw x -> library_failure x.
Proof.
  intros H. apply BigInt_Throw in H. unfold library_failure. tauto.
Qed.

Lemma BigInt_or_null_Throw (v : js string) (x : exn) :
  BigInt_or_null v = Throw x -> library_failure x.
Proof.
  unfold BigInt_or_null.
  destruct (JS.truthy JS.truthy_string v); [| discriminate ].
  intros H. apply bind_Throw in H as [H | (b & _ & H)]; [| discriminate ].
  exact (BigInt_library_failure v x H).
Qed.

Lemma optional_quantity_undefined (x : js string) (decoded : js Z) :
  optional_quantity x undefined decoded ->
  (if JS.truthy JS.truthy_string x
   then b <- JS.BigInt x ;; Ok (def b)
   else Ok undefined) = Ok decoded.
Proof.
  intros [[Hf ->] | (f & Hq & ->)].
  - now rewrite Hf.
  - now rewrite (hex_quantity_truthy _ _ Hq), (BigInt_hex_quantity _ _ Hq).
Qed.

Lemma optional_quantity_null (x : js string) (decoded : js Z) :
  optional_quantity x null decoded -> BigInt_or_null x = Ok decoded.
Proof.
  unfold BigInt_or_null. intros [[Hf ->] | (f & Hq & ->)].
  - now rewrite Hf.
  - now rewrite (hex_quantity_truthy _ _ Hq), (BigInt_hex_quantity _ _ Hq).
Qed.

(** *** Blocks *)

(** X1.  The two transports agree.  A pushed block whose quantities are
    hexadecimal, with height and timestamp within the safe range, is
    converted to the block that the polled block carrying the same data is
    converted to, but for the difficulty: the pushed one keeps the decoded
    difficulty, the polled one has 0. *)
Theorem pushed_block_agrees_with_polled_block (ETHEREUM : EVMNetwork)
    (gethResult : WsBlock.t) (n d t : Z) (fee : js Z) :
  hex_quantity (WsBlock.number gethResult) = Some n ->
  n <= JS.MAX_SAFE_INTEGER ->
  hex_quantity (WsBlock.difficulty gethResult) = Some d ->
  hex_quantity (WsBlock.timestamp gethResult) = Some t ->
  t <= JS.MAX_SAFE_INTEGER ->
  optional_quantity (WsBlock.baseFeePerGas gethResult) undefined fee ->
  exists b : Block.t,
    blockFromWebsocketBlock ETHEREUM gethResult = Ok b
    /\ Block.difficulty b = d
    /\ with_difficulty b 0
       = blockFromEthersBlock ETHEREUM (polled_counterpart gethResult n t fee).
Proof.
  intros Hn Hsafe Hd Ht Htsafe Hfee. unfold blockFromWebsocketBlock.
  pose proof (hex_quantity_nonneg _ _ Hn) as Hn0.
  pose proof (hex_quantity_nonneg _ _ Ht) as Ht0.
  rewrite (BigNumber_from_hex_quantity _ _ Hn). cbn [bind].
  rewrite (toNumber_safe n (conj Hn0 Hsafe)).
  rewrite (BigInt_hex_quantity _ _ Hd).
  rewrite (BigNumber_from_hex_quantity _ _ Ht). cbn [bind].
  rewrite (toNumber_safe t (conj Ht0 Htsafe)).
  rewrite (optional_quantity_undefined _ _ Hfee). cbn [bind].
  eexists. split; [ reflexivity |]. split; [ reflexivity |].
  unfold with_difficulty, blockFromEthersBlock, polled_counterpart.
  cbn [Block.hash Block.blockHeight Block.parentHash Block.timestamp
       Block.baseFeePerGas Block.network EthersBlock.hash EthersBlock.number
       EthersBlock.parentHash EthersBlock.timestamp EthersBlock.baseFeePerGas].
  destruct Hfee as [[_ ->] | (f & _ & ->)]; reflexivity.
Qed.

(** X1, witness: the sample block. *)
Lemma pushed_block_agrees_with_polled_block_witness :
  exists b : Block.t,
    blockFromWebsocketBlock mainnet
      (pushed_block (def some_hash) (def some_hash) "0x10" "0x61a8") = Ok b
    /\ Block.difficulty b = 10000000000
    /\ with_difficulty b 0
       = blockFromEthersBlock mainnet
           (polled_counterpart
              (pushed_block (def some_hash) (def some_hash) "0x10" "0x61a8")
              16 25000 (def 7)).
Proof.
  apply (pushed_block_agrees_with_polled_block mainnet
           (pushed_block (def some_hash) (def some_hash) "0x10" "0x61a8")
           16 10000000000 25000 (def 7)); try reflexivity; try discriminate.
  right. exists 7. split; reflexivity.
Defined.

(** X2.  Which fault a defective pushed block raises.  The fields are read
    in the order number, difficulty, timestamp, baseFeePerGas, and the first
    defect decides: an absent [number] is the library's invalid-argument
    fault whatever else the payload holds; with [number] in order an absent
    [difficulty] is a TypeError; with both in order an absent [timestamp] is
    the invalid-argument fault.  An absent or empty [baseFeePerGas] is no
    defect.  No other failure exists: whatever is thrown is a fault of the
    run-time or of the library, never a MalformedInput. *)
Theorem pushed_block_failures (ETHEREUM : EVMNetwork) (gethResult : WsBlock.t) :
  (is_def (WsBlock.number gethResult) = false ->
     blockFromWebsocketBlock ETHEREUM gethResult = Throw INVALID_ARGUMENT)
  /\ (forall n : Z,
        hex_quantity (WsBlock.number gethResult) = Some n ->
        n <= JS.MAX_SAFE_INTEGER ->
        is_def (WsBlock.difficulty gethResult) = false ->
        blockFromWebsocketBlock ETHEREUM gethResult = Throw TypeError)
  /\ (forall n d : Z,
        hex_quantity (WsBlock.number gethResult) = Some n ->
        n <= JS.MAX_SAFE_INTEGER ->
        hex_quantity (WsBlock.difficulty gethResult) = Some d ->
        is_def (WsBlock.timestamp gethResult) = false ->
        blockFromWebsocketBlock ETHEREUM gethResult = Throw INVALID_ARGUMENT)
  /\ (forall x : exn,
        blockFromWebsocketBlock ETHEREUM gethResult = Throw x ->
        library_failure x /\ MalformedInput x = false).
Proof.
  repeat split.
  - intros Habs. unfold blockFromWebsocketBlock.
    destruct (WsBlock.number gethResult); [ reflexivity | reflexivity |].
    discriminate Habs.
  - intros n Hn Hsafe Habs. unfold blockFromWebsocketBlock.
    pose proof (hex_quantity_nonneg _ _ Hn) as Hn0.
    rewrite (BigNumber_from_hex_quantity _ _ Hn). cbn [bind].
    rewrite (toNumber_safe n (conj Hn0 Hsafe)).
    destruct (WsBlock.difficulty gethResult); [ reflexivity | reflexivity |].
    discriminate Habs.
  - intros n d Hn Hsafe Hd Habs. unfold blockFromWebsocketBlock.
    pose proof (hex_quantity_nonneg _ _ Hn) as Hn0.
    rewrite (BigNumber_from_hex_quantity _ _ Hn). cbn [bind].
    rewrite (toNumber_safe n (conj Hn0 Hsafe)).
    rewrite (BigInt_hex_quantity _ _ Hd).
    destruct (WsBlock.timestamp gethResult); [ reflexivity | reflexivity |].
    discriminate Habs.
  - unfold blockFromWebsocketBlock in H.
    apply bind_Throw in H as [H | (height & _ & H)];
      [ now apply decode_number_Throw in H |].
    apply bind_Throw in H as [H | (difficulty & _ & H)];
      [ now apply BigInt_library_failure in H |].
    apply bind_Throw in H as [H | (timestamp & _ & H)];
      [ now apply decode_number_Throw in H |].
    apply bind_Throw in H as [H | (fee & _ & H)]; [| discriminate ].
    destruct (JS.truthy JS.truthy_string (WsBlock.baseFeePerGas gethResult));
      [| discriminate ].
    apply bind_Throw in H as [H | (b & _ & H)]; [| discriminate ].
    now apply BigInt_library_failure in H.
  - unfold blockFromWebsocketBlock in H.
    assert (Hl : library_failure x).
    { apply bind_Throw in H as [H | (height & _ & H)];
        [ now apply decode_number_Throw in H |].
      apply bind_Throw in H as [H | (difficulty & _ & H)];
        [ now apply BigInt_library_failure in H |].
      apply bind_Throw in H as [H | (timestamp & _ & H)];
        [ now apply decode_number_Throw in H |].
      apply bind_Throw in H as [H | (fee & _ & H)]; [| discriminate ].
      destruct (JS.truthy JS.truthy_string (WsBlock.baseFeePerGas gethResult));
        [| discriminate ].
      apply bind_Throw in H as [H | (b & _ & H)]; [| discriminate ].
      now apply BigInt_library_failure in H. }
    destruct Hl as [-> | [-> | [-> | ->]]]; reflexivity.
Qed.

(** X2, witness: a block without difficulty, and the fault of a block whose
    height is beyond the safe range. *)
Lemma pushed_block_failures_witness :
  blockFromWebsocketBlock mainnet
    {| WsBlock.hash := def some_hash;
       WsBlock.number := def "0x10";
       WsBlock.parentHash := def some_hash;
       WsBlock.difficulty := undefined;
       WsBlock.timestamp := def "0x61a8";
       WsBlock.baseFeePerGas := undefined |} = Throw TypeError
  /\ library_failure NUMERIC_FAULT_overflow.
Proof.
  split.
  - apply (proj1 (proj2 (pushed_block_failures mainnet _)) 16);
      [ reflexivity | discriminate | reflexivity ].
  - apply (proj2 (proj2 (proj2 (pushed_block_failures mainnet
             (pushed_block (def some_hash) (def some_hash)
                "0x20000000000000" "0x61a8")))) NUMERIC_FAULT_overflow).
    reflexivity.
Defined.

(** *** Pushed transactions *)


(** X3.  A pushed transaction whose quantities are hexadecimal is always
    converted, and every quantity is decoded to its value: [gas] to
    [gasLimit], [gasPrice], [value], [v] (within the safe range), the two
    fee-per-gas fields (null when falsy: absent or empty); hash, to, from
    and input are copied; asset and network are the ones supplied. *)
Theorem pushed_tx_is_decoded (tx : WsTx.t) (asset : FungibleAsset)
    (network : EVMNetwork) (g p a v : Z) (mf mp : js Z) :
  hex_quantity (WsTx.gas tx) = Some g ->
  hex_quantity (WsTx.gasPrice tx) = Some p ->
  optional_quantity (WsTx.maxFeePerGas tx) null mf ->
  optional_quantity (WsTx.maxPriorityFeePerGas tx) null mp ->
  hex_quantity (WsTx.v tx) = Some v ->
  v <= JS.MAX_SAFE_INTEGER ->
  hex_quantity (WsTx.value tx) = Some a ->
  WsTx.type tx = undefined
  \/ (exists ty : Z,
        hex_quantity (WsTx.type tx) = Some ty /\ ty <= JS.MAX_SAFE_INTEGER) ->
  exists e : Tx.t,
    txFromWebsocketTx tx asset network = Ok e
    /\ Tx.gasLimit e = g
    /\ Tx.gasPrice e = def p
    /\ Tx.maxFeePerGas e = mf
    /\ Tx.maxPriorityFeePerGas e = mp
    /\ Tx.v e = def (JS.Num v)
    /\ Tx.value e = a
    /\ Tx.hash e = WsTx.hash tx
    /\ Tx.to e = WsTx.to tx
    /\ Tx.from e = WsTx.from tx
    /\ Tx.input e = WsTx.input tx
    /\ Tx.asset e = asset
    /\ Tx.network e = network.
Proof.
  intros Hg Hp Hmf Hmp Hv Hvsafe Ha Hty. unfold txFromWebsocketTx.
  pose proof (hex_quantity_nonneg _ _ Hv) as Hv0.
  rewrite (BigInt_hex_quantity _ _ Hg), (BigInt_hex_quantity _ _ Hp),
    (optional_quantity_null _ _ Hmf), (optional_quantity_null _ _ Hmp),
    (BigNumber_from_hex_quantity _ _ Hv).
  cbn [bind]. rewrite (toNumber_safe v (conj Hv0 Hvsafe)).
  rewrite (BigInt_hex_quantity _ _ Ha). cbn [bind].
  destruct Hty as [-> | (ty & Hty & Htysafe)].
  - cbn [bind]. eexists. repeat split.
  - pose proof (hex_quantity_nonneg _ _ Hty) as Hty0.
    pose proof (hex_quantity_shape _ _ Hty) as (digits & Eshape & _).
    rewrite Eshape. rewrite <- Eshape.
    rewrite (BigNumber_from_hex_quantity _ _ Hty). cbn [bind].
    rewrite (toNumber_safe ty (conj Hty0 Htysafe)). cbn [bind].
    eexists. repeat split.
Qed.

(** X3, witness: the sample payload. *)
Lemma pushed_tx_is_decoded_witness :
  exists e : Tx.t,
    txFromWebsocketTx
      (pushed_tx (def "0x1") (def "0x2") undefined (def "0x1b") (def "0x2"))
      DAI goerli = Ok e
    /\ Tx.gasLimit e = 21000
    /\ Tx.gasPrice e = def 1
    /\ Tx.maxFeePerGas e = def 2
    /\ Tx.maxPriorityFeePerGas e = null
    /\ Tx.v e = def (JS.Num 27)
    /\ Tx.value e = 1000000000000000000
    /\ Tx.hash e = def some_hash
    /\ Tx.to e = def bob
    /\ Tx.from e = def alice
    /\ Tx.input e = def "0x"
    /\ Tx.asset e = DAI
    /\ Tx.network e = goerli.
Proof.
  apply (pushed_tx_is_decoded
           (pushed_tx (def "0x1") (def "0x2") undefined (def "0x1b")
              (def "0x2")) DAI goerli 21000 1 1000000000000000000 27
           (def 2) null); try reflexivity; try discriminate.
  - right. exists 2. split; reflexivity.
  - left. split; reflexivity.
  - right. exists 2. split; [ reflexivity | discriminate ].
Defined.

(** X4.  The type of a pushed transaction is decoded, not checked: an
    absent type ([undefined]) is 0, a hexadecimal type is its value whatever
    it is (3 and beyond included, up to the safe range), and a [null] type
    makes the conversion fail. *)
Theorem pushed_type_is_decoded_unchecked (tx : WsTx.t) (asset : FungibleAsset)
    (network : EVMNetwork) :
  (WsTx.type tx = null ->
     returns (txFromWebsocketTx tx asset network) = false)
  /\ (forall e : Tx.t,
        txFromWebsocketTx tx asset network = Ok e ->
        WsTx.type tx = undefined -> Tx.type e = def (JS.Num 0))
  /\ (forall (e : Tx.t) (n : Z),
        txFromWebsocketTx tx asset network = Ok e ->
        hex_quantity (WsTx.type tx) = Some n ->
        Tx.type e = def (JS.Num n) /\ n <= JS.MAX_SAFE_INTEGER).
Proof.
  split; [| split ].
  - intros Hnull. unfold txFromWebsocketTx. rewrite Hnull.
    destruct (JS.BigInt (WsTx.gas tx)); [| reflexivity ].
    destruct (JS.BigInt (WsTx.gasPrice tx)); [| reflexivity ].
    destruct (BigInt_or_null (WsTx.maxFeePerGas tx)); [| reflexivity ].
    destruct (BigInt_or_null (WsTx.maxPriorityFeePerGas tx)); [| reflexivity ].
    destruct (n <- BigNumber.from (WsTx.v tx) ;; BigNumber.toNumber n);
      [| reflexivity ].
    destruct (JS.BigInt (WsTx.value tx)); reflexivity.
  - intros e H Hty.
    apply txFromWebsocketTx_Ok in H
      as (gl & gp & mf & mp & v & value & ty
          & _ & _ & _ & _ & _ & _ & Htype & ->).
    rewrite Hty in Htype. inversion Htype. reflexivity.
  - intros e n H Hty.
    apply txFromWebsocketTx_Ok in H
      as (gl & gp & mf & mp & v & value & ty
          & _ & _ & _ & _ & _ & _ & Htype & ->).
    pose proof (hex_quantity_nonneg _ _ Hty) as Hn0.
    pose proof (hex_quantity_shape _ _ Hty) as (digits & Eshape & _).
    rewrite Eshape in Htype. rewrite <- Eshape in Htype.
    rewrite (BigNumber_from_hex_quantity _ _ Hty) in Htype.
    cbn [bind] in Htype.
    apply bind_Ok in Htype as (t & Ht & Hdef).
    apply toNumber_Ok in Ht as [-> Habs]. inversion Hdef.
    split; [ reflexivity | lia ].
Qed.

(** X4, witness: type 3 goes through, a null type does not. *)
Lemma pushed_type_is_decoded_unchecked_witness :
  (exists e : Tx.t,
     txFromWebsocketTx
       (pushed_tx (def "0x1") undefined undefined (def "0x1b") (def "0x3"))
       ETH mainnet = Ok e
     /\ Tx.type e = def (JS.Num 3))
  /\ returns (txFromWebsocketTx
                (pushed_tx (def "0x1") undefined undefined (def "0x1b") null)
                ETH mainnet) = false.
Proof.
  split.
  - eexists. split; [ vm_compute; reflexivity |].
    apply (proj2 (proj2 (pushed_type_is_decoded_unchecked
                           (pushed_tx (def "0x1") undefined undefined
                              (def "0x1b") (def "0x3")) ETH mainnet))
             _ 3 eq_refl eq_refl).
  - apply (proj1 (pushed_type_is_decoded_unchecked
                    (pushed_tx (def "0x1") undefined undefined (def "0x1b")
                       null) ETH mainnet)).
    reflexivity.
Defined.

(** X5.  A pushed transaction comes out signed exactly when its payload has
    a non-empty [r] and a non-empty [s]: [v] is always there, an [r] or [s]
    that is absent or empty becomes [undefined], and a non-empty one is
    copied. *)
Theorem pushed_tx_signed_iff_r_s (tx : WsTx.t) (asset : FungibleAsset)
    (network : EVMNetwork) (e : Tx.t) :
  txFromWebsocketTx tx asset network = Ok e ->
  Tx.signed e
  = JS.truthy JS.truthy_string (WsTx.r tx)
    && JS.truthy JS.truthy_string (WsTx.s tx)
  /\ is_def (Tx.v e) = true
  /\ (JS.truthy JS.truthy_string (WsTx.r tx) = true -> Tx.r e = WsTx.r tx)
  /\ (JS.truthy JS.truthy_string (WsTx.r tx) = false -> Tx.r e = undefined)
  /\ (JS.truthy JS.truthy_string (WsTx.s tx) = true -> Tx.s e = WsTx.s tx)
  /\ (JS.truthy JS.truthy_string (WsTx.s tx) = false -> Tx.s e = undefined).
Proof.
  intros H.
  apply txFromWebsocketTx_Ok in H
    as (gl & gp & mf & mp & v & value & ty & _ & _ & _ & _ & _ & _ & _ & ->).
  unfold Tx.signed, JS.or_else. cbn [Tx.r Tx.s Tx.v is_def].
  destruct (WsTx.r tx) as [| | [| c r]], (WsTx.s tx) as [| | [| c' s]];
    cbn; repeat split; intros; try reflexivity; discriminate.
Qed.

(** X5, witness: with both [r] and [s], and with an empty [s]. *)
Lemma pushed_tx_signed_iff_r_s_witness :
  (exists e : Tx.t,
     txFromWebsocketTx (pushed_tx_signed (def "0x1") (def "0x2") (def "0x7"))
       ETH mainnet = Ok e
     /\ Tx.signed e = true)
  /\ (exists e : Tx.t,
        txFromWebsocketTx (pushed_tx_signed (def "0x1") (def "") (def "0x7"))
          ETH mainnet = Ok e
        /\ Tx.signed e = false /\ Tx.s e = undefined).
Proof.
  split.
  - eexists. split; [ vm_compute; reflexivity |].
    exact (proj1 (pushed_tx_signed_iff_r_s
                    (pushed_tx_signed (def "0x1") (def "0x2") (def "0x7"))
                    ETH mainnet _ eq_refl)).
  - eexists. split; [ vm_compute; reflexivity |].
    pose proof (pushed_tx_signed_iff_r_s
                  (pushed_tx_signed (def "0x1") (def "") (def "0x7"))
                  ETH mainnet _ eq_refl) as (Hs & _ & _ & _ & _ & Hu).
    split; [ exact Hs | exact (Hu eq_refl) ].
Defined.



(** X7.  Whatever [fromSubscriptionTx] throws is a fault of the run-time or
    of the provider library (a TypeError or SyntaxError of [BigInt], the
    invalid-argument or overflow fault of [BigNumber]): it has no failure of
    its own, neither MalformedInput nor UnsupportedTransactionType. *)
Theorem pushed_tx_failures (tx : WsTx.t) (asset : FungibleAsset)
    (network : EVMNetwork) (x : exn) :
  txFromWebsocketTx tx asset network = Throw x ->
  library_failure x
  /\ MalformedInput x = false
  /\ UnsupportedTransactionType x = false.
Proof.
  intros H.
  assert (Hl : library_failure x).
  { unfold txFromWebsocketTx in H.
    apply bind_Throw in H as [H | (gl & _ & H)];
      [ exact (BigInt_library_failure _ _ H) |].
    apply bind_Throw in H as [H | (gp & _ & H)];
      [ exact (BigInt_library_failure _ _ H) |].
    apply bind_Throw in H as [H | (mf & _ & H)];
      [ exact (BigInt_or_null_Throw _ _ H) |].
    apply bind_Throw in H as [H | (mp & _ & H)];
      [ exact (BigInt_or_null_Throw _ _ H) |].
    apply bind_Throw in H as [H | (v & _ & H)];
      [ exact (decode_number_Throw _ _ H) |].
    apply bind_Throw in H as [H | (value & _ & H)];
      [ exact (BigInt_library_failure _ _ H) |].
    apply bind_Throw in H as [H | (ty & _ & H)]; [| discriminate ].
    destruct (WsTx.type tx) as [| | s]; [ discriminate | |].
    - apply bind_Throw in H as [H | (n & Hn & _)]; [| discriminate Hn ].
      apply BigNumber_from_Throw in H. unfold library_failure. auto.
    - apply bind_Throw in H as [H | (n & _ & H)].
      + apply BigNumber_from_Throw in H. unfold library_failure. auto.
      + apply bind_Throw in H as [H | (t & _ & H)]; [| discriminate ].
        apply toNumber_Throw in H. unfold library_failure. auto. }
  split; [ exact Hl |].
  destruct Hl as [-> | [-> | [-> | ->]]]; split; reflexivity.
Qed.

(** X7, witness: the payload without [v]. *)
Lemma pushed_tx_failures_witness :
  library_failure INVALID_ARGUMENT
  /\ MalformedInput INVALID_ARGUMENT = false
  /\ UnsupportedTransactionType INVALID_ARGUMENT = false.
Proof.
  apply (pushed_tx_failures
           (pushed_tx (def "0x1") undefined undefined null undefined)
           ETH mainnet INVALID_ARGUMENT).
  reflexivity.
Defined.

(** *** Polled transactions *)

(** X8.  [fromPolledTx] fails in three ways and no other: MalformedInput
    (no hash), UnsupportedTransactionType, and, for a non-native asset only,
    the RangeError of [BigInt] on call data whose tail is not a number. *)
Theorem polled_tx_failures (tx : EthersTx.t) (asset : FungibleAsset)
    (network : EVMNetwork) (x : exn) :
  txFromEthersTx tx asset network = Throw x -> polled_failure asset x.
Proof.
  unfold txFromEthersTx, polled_failure, native. intros H.
  destruct (EthersTx.hash tx);
    [ inversion H; left; reflexivity | |];
    (destruct (unknown_type (EthersTx.type tx));
     [ inversion H; right; left; reflexivity |]);
    unfold bind in H;
    (destruct (symbol asset =? "ETH")%string; cbn [negb] in H;
     [ match type of H with
       | context [ if ?b then _ else _ ] => destruct b
       end; discriminate H |]);
    (destruct (JS.parseInt (JS.slice_last 64 (EthersTx.data tx)) 16);
     cbn [JS.BigInt_of_number] in H;
     try (inversion H; right; right; split; reflexivity));
    match type of H with
    | context [ if ?b then _ else _ ] => destruct b
    end; discriminate H.
Qed.

(** X8, witness: a token transfer without call data. *)
Lemma polled_tx_failures_witness : polled_failure DAI RangeError.
Proof.
  apply (polled_tx_failures (polled_tx "0x") DAI mainnet RangeError).
  reflexivity.
Defined.

Lemma leading_int_whole (R : Z) (s : string) (z : Z) :
  JS.whole_int R s = Some z -> JS.leading_int R s = Some z.
Proof.
  unfold JS.whole_int, JS.leading_int.
  destruct s as [| c t]; [ discriminate |].
  simpl JS.all_digits.
  destruct (JS.digit R c); [| discriminate ].
  destruct (JS.all_digits R t); [ trivial | discriminate ].
Qed.

Lemma slice_last_short (n : nat) (s : string) :
  (String.length s <= n)%nat -> JS.slice_last n s = s.
Proof.
  intros H. unfold JS.slice_last.
  replace (String.length s - n)%nat with 0%nat by lia.
  destruct s; reflexivity.
Qed.

(** [parseInt] of a hexadecimal quantity strips the prefix and reads the
    digits. *)
Lemma parseInt_hex_quantity (s : string) (n : Z) :
  hex_quantity (def s) = Some n ->
  JS.parseInt s 16 = JS.number_of_Z n
  /\ 0 <= n < 16 ^ Z.of_nat (String.length s - 2).
Proof.
  intros H. apply hex_quantity_shape in H as (digits & E & Hd).
  inversion E; subst s. clear E.
  split.
  - change (JS.parseInt (String "0" (String "x" digits)) 16)
      with (match JS.leading_int 16 digits with
            | Some m => JS.number_of_Z m
            | None => JS.NaN
            end).
    now rewrite (leading_int_whole _ _ _ Hd).
  - apply whole_int_all_digits in Hd as (_ & _ & ->).
    pose proof (scan_bound 16 digits 0 ltac:(lia) ltac:(lia)) as Hb.
    replace (String.length (String "0" (String "x" digits)) - 2)%nat
      with (String.length digits) by (simpl; lia).
    lia.
Qed.

(** X9.  Call data shorter than 32 bytes is read whole.  For a non-native
    asset, when the call data is a hexadecimal quantity of at most 64
    characters (prefix included), the value is that whole quantity, selector
    and all, as a double: the quantity itself up to 2^53 - 1. *)
Theorem short_call_data_is_read_whole (tx : EthersTx.t)
    (asset : FungibleAsset) (network : EVMNetwork) (n : Z) :
  native asset = false ->
  EthersTx.hash tx <> undefined ->
  known_type (EthersTx.type tx) ->
  (String.length (EthersTx.data tx) <= 64)%nat ->
  hex_quantity (def (EthersTx.data tx)) = Some n ->
  exists e : Tx.t,
    txFromEthersTx tx asset network = Ok e
    /\ Tx.value e = JS.round53 n
    /\ (n <= JS.MAX_SAFE_INTEGER -> Tx.value e = n).
Proof.
  unfold native. intros Hn Hh Hk Hlen Hq.
  apply unknown_type_spec in Hk.
  destruct (parseInt_hex_quantity _ _ Hq) as [Hp Hb].
  assert (Hfin : 0 <= n < 2 ^ 256).
  { split; [ lia |].
    apply Z.lt_le_trans with (16 ^ Z.of_nat (String.length (EthersTx.data tx) - 2));
      [ lia |].
    change (2 ^ 256) with (16 ^ 64).
    apply Z.pow_le_mono_r; lia. }
  unfold txFromEthersTx.
  rewrite Hk, Hn, (slice_last_short 64 _ Hlen), Hp,
    (number_of_Z_finite n Hfin).
  cbn [negb JS.BigInt_of_number bind].
  destruct (EthersTx.hash tx); [ congruence | |];
    match goal with
    | |- context [ if ?b then _ else _ ] => destruct b
    end; eexists; (split; [ reflexivity |]);
    cbn [Tx.value]; (split; [ reflexivity |]);
    intros Hsafe; apply round53_safe; lia.
Qed.

(** X9, witness: call data that is a selector only. *)
Lemma short_call_data_is_read_whole_witness :
  exists e : Tx.t,
    txFromEthersTx (polled_tx "0xa9059cbb") DAI mainnet = Ok e
    /\ Tx.value e = JS.round53 2835717307
    /\ (2835717307 <= JS.MAX_SAFE_INTEGER -> Tx.value e = 2835717307).
Proof.
  apply (short_call_data_is_read_whole (polled_tx "0xa9059cbb") DAI mainnet
           2835717307).
  - reflexivity.
  - discriminate.
  - right. right. reflexivity.
  - simpl. lia.
  - reflexivity.
Defined.

Lemma positive_toString_safe (m : Z) :
  0 <= m <= JS.MAX_SAFE_INTEGER -> JS.positive_toString m = JS.decimal m.
Proof.
  intros Hm. unfold JS.positive_toString, JS.shortest.
  destruct (Z.leb_spec m JS.MAX_SAFE_INTEGER) as [_ | Hgt]; [| lia ].
  assert (Hlen : (String.length (JS.decimal m) <= 21)%nat).
  { unfold JS.decimal.
    pose proof (dec_digits_length (S (Z.to_nat (Z.log2 m))) m "" 16
                  ltac:(lia)) as Hl.
    assert (Hb : JS.MAX_SAFE_INTEGER < 10 ^ Z.of_nat 16) by reflexivity.
    specialize (Hl ltac:(lia)). simpl String.length in Hl at 2. lia. }
  apply Nat.leb_le in Hlen. now rewrite Hlen.
Qed.

Lemma leading_int_decimal (m : Z) :
  0 <= m -> JS.leading_int 10 (JS.decimal m) = Some m.
Proof.
  intros Hm. apply leading_int_whole. unfold JS.whole_int, JS.decimal.
  pose proof (dec_digits_nonempty (Z.to_nat (Z.log2 m)) m "") as Hne.
  destruct (JS.dec_digits (S (Z.to_nat (Z.log2 m))) m "") as [| c t] eqn:E;
    [ congruence |].
  rewrite <- E, all_digits_dec_digits by assumption.
  destruct (scan_dec_digits _ m "" (decimal_fuel m Hm)) as [k Hk].
  rewrite Hk. simpl. reflexivity.
Qed.

Lemma parseInt_minus (s : string) :
  JS.parseInt (String "-" s) 10
  = match JS.leading_int 10 s with
    | Some m => JS.number_of_Z (- m)
    | None => JS.NaN
    end.
Proof. destruct s as [| c0 [| c1 t]]; reflexivity. Qed.

(** An integer within the safe range survives [parseInt(n.toString(), 10)],
    whatever its sign. *)
Lemma parseInt_toString_safe_integer (n : Z) :
  Z.abs n <= JS.MAX_SAFE_INTEGER ->
  JS.parseInt (JS.Number_toString (JS.Num n)) 10 = JS.Num n.
Proof.
  intros Hn. destruct (Z.le_gt_cases 0 n) as [Hpos | Hneg].
  - apply parseInt_toString_safe. lia.
  - unfold JS.Number_toString.
    destruct (Z.eqb_spec n 0) as [-> | _]; [ lia |].
    destruct (Z.ltb_spec n 0) as [_ | Hge]; [| lia ].
    rewrite positive_toString_safe by lia.
    change ("-" ++ JS.decimal (- n))%string with (String "-" (JS.decimal (- n))).
    rewrite parseInt_minus, leading_int_decimal by lia.
    rewrite Z.opp_involutive. apply number_of_Z_safe. assumption.
Qed.

Lemma polled_tx_fields (tx : EthersTx.t) (asset : FungibleAsset)
    (network : EVMNetwork) (e : Tx.t) :
  txFromEthersTx tx asset network = Ok e ->
  Tx.hash e = EthersTx.hash tx
  /\ Tx.from e = EthersTx.from tx
  /\ Tx.to e = EthersTx.to tx
  /\ Tx.nonce e = JS.parseInt (JS.Number_toString (EthersTx.nonce tx)) 10
  /\ Tx.gasLimit e = EthersTx.gasLimit tx
  /\ Tx.gasPrice e = toBigInt_or_null (EthersTx.gasPrice tx)
  /\ Tx.maxFeePerGas e = toBigInt_or_null (EthersTx.maxFeePerGas tx)
  /\ Tx.maxPriorityFeePerGas e
     = toBigInt_or_null (EthersTx.maxPriorityFeePerGas tx)
  /\ Tx.input e = def (EthersTx.data tx)
  /\ Tx.blockHash e = JS.or_else JS.truthy_string (EthersTx.blockHash tx) null
  /\ Tx.blockHeight e
     = JS.or_else JS.truthy_number (EthersTx.blockNumber tx) null
  /\ Tx.network e = network
  /\ Tx.asset e = asset.
Proof.
  intros H. polled_cases H;
    repeat split; try reflexivity; symmetry; assumption.
Qed.

(** X10.  The nonce of a polled transaction is kept when it is an integer
    within the safe range, of either sign; a nonce that is NaN or infinite
    comes out as NaN. *)
Theorem polled_nonce_is_kept (tx : EthersTx.t) (asset : FungibleAsset)
    (network : EVMNetwork) (e : Tx.t) :
  txFromEthersTx tx asset network = Ok e ->
  (forall n : Z,
      EthersTx.nonce tx = JS.Num n -> Z.abs n <= JS.MAX_SAFE_INTEGER ->
      Tx.nonce e = JS.Num n)
  /\ (EthersTx.nonce tx = JS.NaN
      \/ (exists negative : bool, EthersTx.nonce tx = JS.Infinity negative) ->
      Tx.nonce e = JS.NaN).
Proof.
  intros H.
  destruct (polled_tx_fields _ _ _ _ H) as (_ & _ & _ & Hnonce & _).
  rewrite Hnonce. split.
  - intros n -> Hsafe. now apply parseInt_toString_safe_integer.
  - intros [-> | ([|] & ->)]; reflexivity.
Qed.

(** X10, witness: nonce 7, and a nonce that is not a number. *)
Lemma polled_nonce_is_kept_witness :
  (exists e : Tx.t,
     txFromEthersTx (polled_tx_at "0x" (JS.Num 7) undefined) ETH mainnet = Ok e
     /\ Tx.nonce e = JS.Num 7)
  /\ (exists e : Tx.t,
        txFromEthersTx (polled_tx_at "0x" JS.NaN undefined) ETH mainnet = Ok e
        /\ Tx.nonce e = JS.NaN).
Proof.
  split.
  - eexists. split; [ vm_compute; reflexivity |].
    apply (proj1 (polled_nonce_is_kept
                    (polled_tx_at "0x" (JS.Num 7) undefined) ETH mainnet _
                    eq_refl) 7 eq_refl).
    discriminate.
  - eexists. split; [ vm_compute; reflexivity |].
    apply (proj2 (polled_nonce_is_kept
                    (polled_tx_at "0x" JS.NaN undefined) ETH mainnet _
                    eq_refl)).
    left. reflexivity.
Defined.

(** X11.  In a polled transaction a block number that is 0 (or NaN, or
    absent) comes out as a null block height, and an empty or absent block
    hash as a null block hash; any other is copied.  The fee fields are
    different: a fee that is present is kept even when it is 0, and only an
    absent one is null. *)
Theorem polled_falsy_block_fields_are_null (tx : EthersTx.t)
    (asset : FungibleAsset) (network : EVMNetwork) (e : Tx.t) :
  txFromEthersTx tx asset network = Ok e ->
  (JS.truthy JS.truthy_number (EthersTx.blockNumber tx) = false ->
     Tx.blockHeight e = null)
  /\ (JS.truthy JS.truthy_number (EthersTx.blockNumber tx) = true ->
        Tx.blockHeight e = EthersTx.blockNumber tx)
  /\ (JS.truthy JS.truthy_string (EthersTx.blockHash tx) = false ->
        Tx.blockHash e = null)
  /\ (JS.truthy JS.truthy_string (EthersTx.blockHash tx) = true ->
        Tx.blockHash e = EthersTx.blockHash tx)
  /\ (forall fee : Z,
        (EthersTx.gasPrice tx = def fee -> Tx.gasPrice e = def fee)
        /\ (EthersTx.maxFeePerGas tx = def fee ->
              Tx.maxFeePerGas e = def fee)
        /\ (EthersTx.maxPriorityFeePerGas tx = def fee ->
              Tx.maxPriorityFeePerGas e = def fee))
  /\ (is_def (EthersTx.gasPrice tx) = false -> Tx.gasPrice e = null).
Proof.
  intros H.
  destruct (polled_tx_fields _ _ _ _ H)
    as (_ & _ & _ & _ & _ & Hgp & Hmf & Hmp & _ & Hbh & Hbn & _).
  rewrite Hgp, Hmf, Hmp, Hbh, Hbn. unfold JS.or_else.
  repeat split.
  - intros ->. reflexivity.
  - intros ->. reflexivity.
  - intros ->. reflexivity.
  - intros ->. reflexivity.
  - intros ->. reflexivity.
  - intros ->. reflexivity.
  - intros ->. reflexivity.
  - intros Habs. now apply toBigInt_or_null_null.
Qed.

(** X11, witness: a payload at block 0, with an empty block hash and fees
    of 0. *)
Lemma polled_falsy_block_fields_are_null_witness :
  exists e : Tx.t,
    txFromEthersTx (polled_tx_at "0x" (JS.Num 7) (def (JS.Num 0))) ETH mainnet
    = Ok e
    /\ Tx.blockHeight e = null
    /\ Tx.blockHash e = null
    /\ Tx.gasPrice e = def 0
    /\ Tx.maxFeePerGas e = def 0.
Proof.
  eexists. split; [ vm_compute; reflexivity |].
  pose proof (polled_falsy_block_fields_are_null
                (polled_tx_at "0x" (JS.Num 7) (def (JS.Num 0))) ETH mainnet _
                eq_refl) as (Hbn & _ & Hbh & _ & Hfee & _).
  destruct (Hfee 0) as (Hgp & Hmf & _).
  split; [ exact (Hbn eq_refl) |].
  split; [ exact (Hbh eq_refl) |].
  split; [ exact (Hgp eq_refl) | exact (Hmf eq_refl) ].
Defined.

(** *** Back to the provider *)

(** X12.  What comes back when a polled transaction is converted and handed
    to [toExternalTx]: to, from, call data and gas limit are the payload's,
    and so is the value for the native asset; the chain ID is read off the
    network supplied; a non-zero [maxFeePerGas] is kept, a zero or absent one
    is dropped; and hash, type and [gasPrice] are never passed on. *)
Theorem polled_tx_back_to_provider (tx : EthersTx.t) (asset : FungibleAsset)
    (network : EVMNetwork) (e : Tx.t) :
  txFromEthersTx tx asset network = Ok e ->
  EthersTx.to (ethersTxFromSignedTx e) = EthersTx.to tx
  /\ EthersTx.from (ethersTxFromSignedTx e) = EthersTx.from tx
  /\ EthersTx.data (ethersTxFromSignedTx e) = EthersTx.data tx
  /\ EthersTx.gasLimit (ethersTxFromSignedTx e) = EthersTx.gasLimit tx
  /\ (native asset = true ->
        EthersTx.value (ethersTxFromSignedTx e) = EthersTx.value tx)
  /\ EthersTx.chainId (ethersTxFromSignedTx e)
     = JS.parseInt (chainID network) 10
  /\ (forall fee : Z,
        fee <> 0 -> EthersTx.maxFeePerGas tx = def fee ->
        EthersTx.maxFeePerGas (ethersTxFromSignedTx e) = def fee)
  /\ (EthersTx.maxFeePerGas tx = def 0
      \/ is_def (EthersTx.maxFeePerGas tx) = false ->
      EthersTx.maxFeePerGas (ethersTxFromSignedTx e) = undefined)
  /\ EthersTx.hash (ethersTxFromSignedTx e) = undefined
  /\ EthersTx.type (ethersTxFromSignedTx e) = undefined
  /\ EthersTx.gasPrice (ethersTxFromSignedTx e) = undefined.
Proof.
  intros H.
  destruct (polled_tx_fields _ _ _ _ H)
    as (_ & Hfrom & Hto & _ & Hgl & _ & Hmf & _ & Hin & _ & _ & Hnet & _).
  unfold ethersTxFromSignedTx.
  cbn [EthersTx.hash EthersTx.to EthersTx.from EthersTx.gasLimit
       EthersTx.gasPrice EthersTx.data EthersTx.value EthersTx.chainId
       EthersTx.type EthersTx.maxFeePerGas].
  rewrite Hfrom, Hto, Hgl, Hmf, Hin, Hnet.
  repeat split.
  - unfold JS.or_else. destruct (EthersTx.data tx); reflexivity.
  - intros Hn. exact (value_of_native tx asset network e Hn H).
  - intros fee Hfee ->. cbn [toBigInt_or_null JS.truthy_object].
    unfold JS.truthy_bigint, BigNumber.toBigInt, BigNumber.from_bigint.
    destruct (Z.eqb_spec fee 0); [ contradiction | reflexivity ].
  - intros [-> | Habs]; [ reflexivity |].
    apply toBigInt_or_null_null in Habs. now rewrite Habs.
Qed.

(** X12, witness: the sample payload, whose [maxFeePerGas] is 0. *)
Lemma polled_tx_back_to_provider_witness :
  exists e : Tx.t,
    txFromEthersTx (polled_tx_at "0x" (JS.Num 7) undefined) ETH mainnet = Ok e
    /\ EthersTx.data (ethersTxFromSignedTx e) = "0x"
    /\ EthersTx.value (ethersTxFromSignedTx e) = 1000000000000000000
    /\ EthersTx.maxFeePerGas (ethersTxFromSignedTx e) = undefined.
Proof.
  eexists. split; [ vm_compute; reflexivity |].
  pose proof (polled_tx_back_to_provider
                (polled_tx_at "0x" (JS.Num 7) undefined) ETH mainnet _ eq_refl)
    as (_ & _ & Hd & _ & Hv & _ & _ & Hz & _).
  split; [ exact Hd |].
  split; [ exact (Hv eq_refl) | exact (Hz (or_introl eq_refl)) ].
Defined.

(** X13.  The two readings of the chain ID agree.  [toExternalTx] reads it
    with [parseInt(_, 10)] and [toProviderNetwork] with [Number(_)]; on a
    decimal chain-ID string both give the Number of the integer it
    denotes. *)
Theorem chain_id_readings_agree (tx : Tx.t) (c : Z) :
  decimal_string (chainID (Tx.network tx)) = Some c ->
  EthersTx.chainId (ethersTxFromSignedTx tx)
  = EthersNetwork.chainId (networkToEthersNetwork (Tx.network tx))
  /\ EthersTx.chainId (ethersTxFromSignedTx tx) = JS.number_of_Z c.
Proof.
  intros H. unfold ethersTxFromSignedTx, networkToEthersNetwork.
  cbn [EthersTx.chainId EthersNetwork.chainId JS.Number].
  rewrite (StringToNumber_decimal _ _ H).
  pose proof (whole_int_all_digits _ _ _ H) as (Hne & Hall & ->).
  rewrite parseInt_numeral by (try lia; assumption).
  split; reflexivity.
Qed.

(** X13, witness: the sample transaction on mainnet. *)
Lemma chain_id_readings_agree_witness :
  EthersTx.chainId (ethersTxFromSignedTx (signed_tx 1))
  = EthersNetwork.chainId (networkToEthersNetwork mainnet)
  /\ EthersTx.chainId (ethersTxFromSignedTx (signed_tx 1)) = JS.number_of_Z 1.
Proof. apply (chain_id_readings_agree (signed_tx 1) 1). reflexivity. Defined.

(** *** The provider's network name *)





(** *** The value of a polled transaction *)

(** Rounding to a double moves an integer by at most one part in 2^53. *)
Lemma round53_error (z : Z) :
  0 <= z -> Z.abs (JS.round53 z - z) * 2 ^ 53 <= z.
Proof.
  intros Hz. unfold JS.round53. rewrite (Z.abs_eq z Hz).
  destruct (Z.leb_spec (Z.log2 z + 1) 53) as [Hs | Hb].
  - rewrite Z.sub_diag. simpl. assumption.
  - assert (Hpos : 0 < z).
    { destruct (Z.eq_dec z 0) as [-> | ]; [ simpl in Hb; lia | lia ]. }
    set (sh := Z.log2 z + 1 - 53) in *.
    assert (Hsh : 0 < sh) by (unfold sh; lia).
    rewrite !Z.shiftl_mul_pow2, Z.shiftr_div_pow2 by lia.
    rewrite Z.mul_1_l, (Z.sgn_pos z Hpos), Z.mul_1_l.
    set (half := 2 ^ (sh - 1)).
    assert (Hhalf : 0 < half) by (apply Z.pow_pos_nonneg; lia).
    assert (HP : 2 ^ sh = 2 * half).
    { unfold half. rewrite <- Z.pow_succ_r by lia. f_equal. lia. }
    assert (Hlog : half * 2 ^ 53 <= z).
    { unfold half. rewrite <- Z.pow_add_r by lia.
      replace (sh - 1 + 53) with (Z.log2 z) by (unfold sh; lia).
      apply Z.log2_spec. assumption. }
    rewrite HP.
    pose proof (Z.div_mod z (2 * half) ltac:(lia)) as Hdm.
    pose proof (Z.mod_pos_bound z (2 * half) ltac:(lia)) as Hm.
    set (q := z / (2 * half)) in *. set (r := z mod (2 * half)) in *.
    replace (z - q * (2 * half)) with r by lia.
    assert (H53 : 0 < 2 ^ 53) by reflexivity.
    destruct (Z.ltb_spec half r) as [Hlt | Hge]; cbn [orb].
    + replace ((q + 1) * (2 * half) - z) with (2 * half - r) by lia.
      rewrite Z.abs_eq by lia. nia.
    + destruct ((r =? half) && Z.odd q) eqn:Etie.
      * apply andb_prop in Etie as [Er _]. apply Z.eqb_eq in Er.
        replace ((q + 1) * (2 * half) - z) with (2 * half - r) by lia.
        rewrite Z.abs_eq by lia. nia.
      * replace (q * (2 * half) - z) with (- r) by lia.
        rewrite Z.abs_opp, Z.abs_eq by lia. nia.
Qed.

(** X15.  The value of a token transfer.  For a non-native asset, a payload
    with a hash, a known type and call data ending in 64 hexadecimal
    characters is converted, and its value is the double nearest to the
    amount those characters encode: within one part in 2^53 of the amount,
    and the amount itself up to 2^53 - 1. *)
Theorem token_value_is_the_nearest_double (tx : EthersTx.t)
    (asset : FungibleAsset) (network : EVMNetwork) (n : Z) :
  native asset = false ->
  EthersTx.hash tx <> undefined ->
  known_type (EthersTx.type tx) ->
  call_data_amount (EthersTx.data tx) = Some n ->
  exists e : Tx.t,
    txFromEthersTx tx asset network = Ok e
    /\ Tx.value e = JS.round53 n
    /\ Z.abs (Tx.value e - n) * 2 ^ 53 <= n
    /\ (n <= JS.MAX_SAFE_INTEGER -> Tx.value e = n).
Proof.
  unfold native. intros Hn Hh Hk Hc.
  apply unknown_type_spec in Hk.
  destruct (parseInt_call_data _ _ Hc) as [Hb Hp].
  unfold txFromEthersTx. rewrite Hk, Hn, Hp.
  cbn [negb JS.BigInt_of_number bind].
  destruct (EthersTx.hash tx); [ congruence | |];
    match goal with
    | |- context [ if ?b then _ else _ ] => destruct b
    end; eexists; (split; [ reflexivity |]);
    cbn [Tx.value]; (split; [ reflexivity |]);
    (split; [ apply round53_error; lia |]);
    intros Hsafe; apply round53_safe; lia.
Qed.

(** X15, witness: a transfer of 2^53 + 1 units. *)
Lemma token_value_is_the_nearest_double_witness :
  exists e : Tx.t,
    txFromEthersTx (polled_tx (transfer_data amount_2_53_plus_1)) DAI mainnet
    = Ok e
    /\ Tx.value e = JS.round53 9007199254740993
    /\ Z.abs (Tx.value e - 9007199254740993) * 2 ^ 53 <= 9007199254740993
    /\ (9007199254740993 <= JS.MAX_SAFE_INTEGER ->
          Tx.value e = 9007199254740993).
Proof.
  apply (token_value_is_the_nearest_double
           (polled_tx (transfer_data amount_2_53_plus_1)) DAI mainnet
           9007199254740993).
  - reflexivity.
  - discriminate.
  - right. right. reflexivity.
  - reflexivity.
Defined.

(** X16.  The value of a native transfer.  For the native asset, a payload
    with a hash and a known type is always converted, whatever its call
    data, and its value is the payload's transfer amount. *)
Theorem native_value_is_the_amount (tx : EthersTx.t) (asset : FungibleAsset)
    (network : EVMNetwork) :
  native asset = true ->
  EthersTx.hash tx <> undefined ->
  known_type (EthersTx.type tx) ->
  exists e : Tx.t,
    txFromEthersTx tx asset network = Ok e
    /\ Tx.value e = EthersTx.value tx
    /\ Tx.input e = def (EthersTx.data tx).
Proof.
  unfold native. intros Hn Hh Hk.
  apply unknown_type_spec in Hk.
  unfold txFromEthersTx. rewrite Hk, Hn. cbn [negb bind].
  destruct (EthersTx.hash tx); [ congruence | |];
    match goal with
    | |- context [ if ?b then _ else _ ] => destruct b
    end; eexists; repeat split.
Qed.

(** X16, witness: a transfer of 10^18 with call data that holds no
    amount. *)
Lemma native_value_is_the_amount_witness :
  exists e : Tx.t,
    txFromEthersTx (polled_tx "0x") ETH mainnet = Ok e
    /\ Tx.value e = 1000000000000000000
    /\ Tx.input e = def "0x".
Proof.
  apply (native_value_is_the_amount (polled_tx "0x") ETH mainnet).
  - reflexivity.
  - discriminate.
  - right. right. reflexivity.
Defined.

(** *** Quantities written in decimal *)

Lemma decimal_literal_shape (s : string) (c : Z) :
  decimal_string s = Some c ->
  JS.trim s = s /\ s <> ""
  /\ JS.prefixed_int s = None
  /\ JS.signed_int s = Some c
  /\ BigNumber.from_string s = Ok c.
Proof.
  unfold decimal_string. intros H.
  pose proof (whole_int_all_digits _ _ _ H) as (Hne & Hall & _).
  split; [ apply trim_no_space, (all_digits_no_space 10); [ lia | assumption ] |].
  split; [ assumption |].
  destruct s as [| c0 t]; [ congruence |].
  simpl in Hall.
  destruct (JS.digit 10 c0) as [d0|] eqn:E0; [| discriminate ].
  destruct (digit_plain 10 c0 d0 ltac:(lia) E0) as (_ & Hminus & Hplus & _).
  assert (Hx : forall c1 t', t = String c1 t' ->
                 JS.is_char c1 "x" "X" = false /\ JS.is_char c1 "o" "O" = false
                 /\ JS.is_char c1 "b" "B" = false).
  { intros c1 t' ->. simpl in Hall.
    destruct (JS.digit 10 c1) as [d1|] eqn:E1; [| discriminate ].
    exact (decimal_digit_plain c1 d1 E1). }
  repeat split.
  - unfold JS.prefixed_int. destruct t as [| c1 t']; [ reflexivity |].
    destruct (Hx c1 t' eq_refl) as (H1 & H2 & H3).
    rewrite H1, H2, H3. destruct (JS.is_char c0 "0" "0"); reflexivity.
  - unfold JS.signed_int. rewrite Hminus, Hplus. exact H.
  - unfold BigNumber.from_string. rewrite Hminus.
    destruct t as [| c1 t']; [ now rewrite H |].
    destruct (Hx c1 t' eq_refl) as (H1 & _ & _).
    unfold JS.is_char in H1. apply orb_false_elim in H1 as [H1 _].
    unfold JS.is_char at 2. rewrite H1. cbn [orb]. rewrite andb_false_r.
    now rewrite H.
Qed.

Lemma quantity_cases (x : js string) (n : Z) :
  quantity x = Some n ->
  hex_quantity x = Some n
  \/ (exists s : string, x = def s /\ decimal_string s = Some n).
Proof.
  unfold quantity. destruct (hex_quantity x) as [m|].
  - intros H. left. exact H.
  - destruct x as [| | s]; try discriminate. intros H. right. now exists s.
Qed.

Lemma BigNumber_from_quantity (x : js string) (n : Z) :
  quantity x = Some n -> BigNumber.from x = Ok n /\ 0 <= n.
Proof.
  intros H. apply quantity_cases in H as [H | (s & -> & H)].
  - split; [ now apply BigNumber_from_hex_quantity
           | now apply (hex_quantity_nonneg x) ].
  - split; [ apply (decimal_literal_shape _ _ H) |].
    apply (whole_int_nonneg 10 s n); [ lia | exact H ].
Qed.

Lemma BigInt_quantity (x : js string) (n : Z) :
  quantity x = Some n -> JS.BigInt x = Ok n.
Proof.
  intros H. apply quantity_cases in H as [H | (s & -> & H)].
  - now apply BigInt_hex_quantity.
  - destruct (decimal_literal_shape _ _ H) as (Ht & Hne & Hp & Hs & _).
    unfold JS.BigInt, JS.StringToBigInt. rewrite Ht, Hp, Hs.
    destruct s; [ congruence | reflexivity ].
Qed.

(** X17.  The pushed-block converter does not insist on hexadecimal: each of
    [number], [difficulty] and [timestamp] may as well be a decimal string,
    and is decoded to the integer it denotes (height and timestamp within
    the safe range). *)
Theorem pushed_block_accepts_decimal (ETHEREUM : EVMNetwork)
    (gethResult : WsBlock.t) (n d t : Z) (fee : js Z) :
  quantity (WsBlock.number gethResult) = Some n ->
  n <= JS.MAX_SAFE_INTEGER ->
  quantity (WsBlock.difficulty gethResult) = Some d ->
  quantity (WsBlock.timestamp gethResult) = Some t ->
  t <= JS.MAX_SAFE_INTEGER ->
  optional_quantity (WsBlock.baseFeePerGas gethResult) undefined fee ->
  exists b : Block.t,
    blockFromWebsocketBlock ETHEREUM gethResult = Ok b
    /\ Block.blockHeight b = JS.Num n
    /\ Block.difficulty b = d
    /\ Block.timestamp b = JS.Num t
    /\ Block.baseFeePerGas b = fee.
Proof.
  intros Hn Hsafe Hd Ht Htsafe Hfee. unfold blockFromWebsocketBlock.
  destruct (BigNumber_from_quantity _ _ Hn) as [En Hn0].
  destruct (BigNumber_from_quantity _ _ Ht) as [Et Ht0].
  rewrite En. cbn [bind]. rewrite (toNumber_safe n (conj Hn0 Hsafe)).
  rewrite (BigInt_quantity _ _ Hd).
  rewrite Et. cbn [bind]. rewrite (toNumber_safe t (conj Ht0 Htsafe)).
  rewrite (optional_quantity_undefined _ _ Hfee). cbn [bind].
  eexists. repeat split.
Qed.

(** X17, witness: height and difficulty in decimal, timestamp in
    hexadecimal. *)
Lemma pushed_block_accepts_decimal_witness :
  exists b : Block.t,
    blockFromWebsocketBlock goerli
      {| WsBlock.hash := def some_hash;
         WsBlock.number := def "16";
         WsBlock.parentHash := def some_hash;
         WsBlock.difficulty := def "10000000000";
         WsBlock.timestamp := def "0x61a8";
         WsBlock.baseFeePerGas := def "" |} = Ok b
    /\ Block.blockHeight b = JS.Num 16
    /\ Block.difficulty b = 10000000000
    /\ Block.timestamp b = JS.Num 25000
    /\ Block.baseFeePerGas b = undefined.
Proof.
  apply (pushed_block_accepts_decimal goerli _ 16 10000000000 25000 undefined);
    try reflexivity; try discriminate.
  left. split; reflexivity.
Defined.
